(** * A shallow embedding of the TB-Python-SQL-Pull ETL utility

    The development follows the four Python modules of the repository:
    - [rds_query_utils.py]: [build_schema] and [build_query], the query
      compiler turning a query package into an expected schema and a SQL text;
    - [rds_processor.py]: [RDS.check_schema] and [RDS.query_to_df], schema
      validation and duplicate removal on the materialised table;
    - [s3_bucket_util.py]: [monitor_and_maintain_archive_limit], the archive
      rotation loop over an object store.

    Python strings are [string]s of bytes (the UTF-8 encoding of the text);
    Python integers are [Z]; a Python dict used as a record whose keys may
    be missing is a Rocq record of [option] fields ([None] = key absent, a
    [KeyError] when read); an exception is the [Raise] case of [result]. *)

From Stdlib Require Import String Ascii List ZArith Lia Bool.
Import ListNotations.

Local Open Scope Z_scope.

(** ** Python-level helpers *)

(** The outcome of a Python call: a value, or a raised exception. *)
Inductive exn : Type :=
  | ExnSourceFields      (* "Could not pull fields from Source" *)
  | ExnJoinFields        (* "Could not pull fields from Join List" *)
  | ExnSourceTable       (* "Could not pull source table or name" *)
  | ExnJoinInfo          (* "Could not pull join information from join list" *)
  | ExnUnboundLocalE     (* the bare [except:] handlers of the filter and order
                            steps format the unbound local [e]: UnboundLocalError *)
  | ExnUnicodeDecode     (* [codecs.decode(..., 'unicode_escape')] failed *)
  | ExnSchemaBuild       (* "Could not build schema from source or join list" *)
  | ExnEmptyDataFrame    (* "Dataframe Empty When Checking Schema" / "DataFrame Emtpy from SQL Query" *)
  | ExnSchemaMismatch    (* "DataFrame Schema Did Not Match, Check fields_missing()" *)
  | ExnUnknownProject    (* "Project Not Contained in Project Dictionary" *)
  | ExnNoSource          (* "Query Package Exists, but Not Source Component Identified" *)
  | ExnNoJoinList        (* "Query Package Exists, but Not Join List Component Identified" *)
  | ExnSqlPull.          (* "Failed to Pull Rows from Cursor Query Execute" *)

Inductive result (A : Type) : Type :=
  | Ok : A -> result A
  | Raise : exn -> result A.
Arguments Ok {A} _.
Arguments Raise {A} _.

Definition bind {A B : Type} (m : result A) (k : A -> result B) : result B :=
  match m with
  | Ok a => k a
  | Raise e => Raise e
  end.

Notation "'let*' x ':=' m 'in' k" := (bind m (fun x => k))
  (at level 200, x name, m at level 100, k at level 200).

(** Reading a dict key that may be absent: a [KeyError], caught by the
    enclosing [try] and re-raised as [e]. *)
Definition need {A : Type} (o : option A) (e : exn) : result A :=
  match o with
  | Some a => Ok a
  | None => Raise e
  end.

Definition nl : string := String (ascii_of_nat 10) EmptyString.

(** [str(n)] for a Python int, in decimal. *)
Fixpoint string_of_uint (d : Decimal.uint) : string :=
  match d with
  | Decimal.Nil => EmptyString
  | Decimal.D0 d => String "0" (string_of_uint d)
  | Decimal.D1 d => String "1" (string_of_uint d)
  | Decimal.D2 d => String "2" (string_of_uint d)
  | Decimal.D3 d => String "3" (string_of_uint d)
  | Decimal.D4 d => String "4" (string_of_uint d)
  | Decimal.D5 d => String "5" (string_of_uint d)
  | Decimal.D6 d => String "6" (string_of_uint d)
  | Decimal.D7 d => String "7" (string_of_uint d)
  | Decimal.D8 d => String "8" (string_of_uint d)
  | Decimal.D9 d => String "9" (string_of_uint d)
  end.

Definition string_of_Z (z : Z) : string :=
  match Z.to_int z with
  | Decimal.Pos u => string_of_uint u
  | Decimal.Neg u => String "-" (string_of_uint u)
  end.

Definition string_of_nat (n : nat) : string := string_of_uint (Nat.to_uint n).

(** [enumerate(l)] *)
Fixpoint enumerate_from {A : Type} (i : nat) (l : list A) : list (nat * A) :=
  match l with
  | [] => []
  | x :: r => (i, x) :: enumerate_from (S i) r
  end.

Definition enumerate {A : Type} (l : list A) : list (nat * A) := enumerate_from 0 l.

(** ** [codecs.decode(s.encode(), 'unicode_escape')]

    The bytes of [s] are read one by one; a backslash starts an escape.
    The result is the text of Latin-1 code points, one per byte.  Escapes
    whose value is not a single byte (an octal, [\u] or [\U] escape above
    255) and [\N{name}] escapes are outside this byte-level model and give
    [None], as do the escapes Python itself rejects (a truncated [\x], [\u]
    or [\U] escape, a backslash at the end of the input). *)

Definition bslash : ascii := "\".

Definition simple_escape (e : ascii) : option ascii :=
  match nat_of_ascii e with
  | 92%nat => Some bslash                (* escape backslash *)
  | 39%nat => Some (ascii_of_nat 39)     (* escape single quote *)
  | 34%nat => Some (ascii_of_nat 34)     (* escape double quote *)
  | 97%nat => Some (ascii_of_nat 7)      (* escape a *)
  | 98%nat => Some (ascii_of_nat 8)      (* escape b *)
  | 102%nat => Some (ascii_of_nat 12)    (* escape f *)
  | 110%nat => Some (ascii_of_nat 10)    (* escape n *)
  | 114%nat => Some (ascii_of_nat 13)    (* escape r *)
  | 116%nat => Some (ascii_of_nat 9)     (* escape t *)
  | 118%nat => Some (ascii_of_nat 11)    (* escape v *)
  | _ => None
  end.

Definition octal_digit (c : ascii) : option Z :=
  let n := nat_of_ascii c in
  if (48 <=? n)%nat && (n <=? 55)%nat then Some (Z.of_nat n - 48) else None.

Definition hex_digit (c : ascii) : option Z :=
  let n := nat_of_ascii c in
  if (48 <=? n)%nat && (n <=? 57)%nat then Some (Z.of_nat n - 48)
  else if (97 <=? n)%nat && (n <=? 102)%nat then Some (Z.of_nat n - 87)
  else if (65 <=? n)%nat && (n <=? 70)%nat then Some (Z.of_nat n - 55)
  else None.

Fixpoint hex_value (acc : Z) (cs : list ascii) : option Z :=
  match cs with
  | [] => Some acc
  | c :: r =>
      match hex_digit c with
      | Some d => hex_value (16 * acc + d) r
      | None => None
      end
  end.

(** Emit the code point [v] in front of the decoded rest. *)
Definition emit (v : Z) (rest : option string) : option string :=
  if Z.ltb v 256 then option_map (String (ascii_of_N (Z.to_N v))) rest else None.

Definition emit_hex (cs : list ascii) (rest : option string) : option string :=
  match hex_value 0 cs with
  | Some v => emit v rest
  | None => None
  end.

Fixpoint unicode_escape_decode (s : string) : option string :=
  match s with
  | EmptyString => Some EmptyString
  | String c rest =>
    if Ascii.eqb c bslash then
      match rest with
      | EmptyString => None
      | String e r =>
        if Ascii.eqb e (ascii_of_nat 10) then unicode_escape_decode r
        else
        match simple_escape e with
        | Some ch => option_map (String ch) (unicode_escape_decode r)
        | None =>
          match octal_digit e with
          | Some o1 =>
            match r with
            | String d2 r2 =>
              match octal_digit d2 with
              | Some o2 =>
                match r2 with
                | String d3 r3 =>
                  match octal_digit d3 with
                  | Some o3 => emit (64 * o1 + 8 * o2 + o3) (unicode_escape_decode r3)
                  | None => emit (8 * o1 + o2) (unicode_escape_decode r2)
                  end
                | EmptyString => emit (8 * o1 + o2) (unicode_escape_decode r2)
                end
              | None => emit o1 (unicode_escape_decode r)
              end
            | EmptyString => emit o1 (unicode_escape_decode r)
            end
          | None =>
            if Ascii.eqb e "x" then
              match r with
              | String h1 (String h2 r2) => emit_hex [h1; h2] (unicode_escape_decode r2)
              | _ => None
              end
            else if Ascii.eqb e "u" then
              match r with
              | String h1 (String h2 (String h3 (String h4 r4))) =>
                  emit_hex [h1; h2; h3; h4] (unicode_escape_decode r4)
              | _ => None
              end
            else if Ascii.eqb e "U" then
              match r with
              | String h1 (String h2 (String h3 (String h4
                  (String h5 (String h6 (String h7 (String h8 r8))))))) =>
                  emit_hex [h1; h2; h3; h4; h5; h6; h7; h8] (unicode_escape_decode r8)
              | _ => None
              end
            else if Ascii.eqb e "N" then None
            else
              (* an unrecognised escape is kept as it is *)
              option_map (fun t => String c (String e t)) (unicode_escape_decode r)
          end
        end
      end
    else option_map (String c) (unicode_escape_decode rest)
  end.

(** ** The query package ([query_package.py], [rds_query_utils.py])

    A field entry of ['fields'] is a dict [{source_column: output_name, ...}]
    in insertion order; ['fields'] is a list of such dicts. *)
Definition dict := list (string * string).

(** Python dict equality [field == item['fields'][-1]]: the same keys with
    the same values, whatever the insertion order (keys of a dict are
    distinct). *)
Definition dict_eqb (d1 d2 : dict) : bool :=
  Nat.eqb (length d1) (length d2) &&
  forallb (fun kv => existsb (fun kv' => String.eqb (fst kv) (fst kv') &&
                                        String.eqb (snd kv) (snd kv')) d2) d1.

(** The ['source'] dict of a query package. *)
Record Source : Type := {
  src_table : option string;      (* source['table'] *)
  src_name : option string;       (* source['name'], the alias *)
  src_fields : option (list dict);(* source['fields'] *)
  src_project : option Z;         (* source['project'] *)
  src_order : option string       (* source['order'] *)
}.

(** One entry of ['join_list'] (its ['clean'] key is never read). *)
Record JoinItem : Type := {
  ji_name : option string;             (* item['name'] *)
  ji_single_or_repeat : option string; (* item['single_or_repeat'] *)
  ji_data_source : option string;      (* item['data_source'] *)
  ji_question_id : option Z;           (* item['question_id'] *)
  ji_fields : option (list dict)       (* item['fields'] *)
}.

Local Open Scope string_scope.

(** *** [build_query], step by step; each step extends the query text. *)

(** Add Fields from Source *)
Definition add_source_fields (src : Source) (query : string) : result string :=
  let* fs := need src.(src_fields) ExnSourceFields in
  fold_left (fun acc field =>
    fold_left (fun acc '(tn, jn) =>
      let* q := acc in
      let* nm := need src.(src_name) ExnSourceFields in
      Ok (q ++ "    " ++ nm ++ "." ++ tn ++ " AS " ++ jn ++ "," ++ nl)) field acc)
    fs (Ok query).

(** Add Fields from Joins: the entries of the last dict of the last join item
    get no trailing comma. *)
Definition add_join_fields (join_list : list JoinItem) (query : string) : result string :=
  fold_left (fun acc '(index, item) =>
    let* q0 := acc in
    let* fs := need item.(ji_fields) ExnJoinFields in
    fold_left (fun acc field =>
      fold_left (fun acc '(tn, jn) =>
        let* q := acc in
        let* nm := need item.(ji_name) ExnJoinFields in
        if Nat.eqb index (length join_list - 1) && dict_eqb field (last fs [])
        then Ok (q ++ "    " ++ nm ++ "." ++ tn ++ " AS " ++ jn ++ nl)
        else Ok (q ++ "    " ++ nm ++ "." ++ tn ++ " AS " ++ jn ++ "," ++ nl)) field acc)
      fs (Ok q0))
    (enumerate join_list) (Ok query).

(** Add Source *)
Definition add_from (src : Source) (query : string) : result string :=
  let query := query ++ nl ++ "FROM" ++ nl in
  let* tbl := need src.(src_table) ExnSourceTable in
  let* nm := need src.(src_name) ExnSourceTable in
  Ok (query ++ "    " ++ tbl ++ " " ++ nm ++ nl).

(** Set Version of Join Through Table: the bridge alias of join [index] and
    the next value of [join_count]. *)
Definition data_conn_of (index join_count : nat) : string * nat :=
  if Nat.eqb index 0 then ("initial_join_answers", join_count)
  else ("join_answers_" ++ string_of_nat join_count, S join_count).

(** The two LEFT JOINs of one join item. *)
Definition join_clauses (data_conn : string) (item : JoinItem) (query : string)
  : result string :=
  let* sr := need item.(ji_single_or_repeat) ExnJoinInfo in
  if String.eqb sr "SINGLE" then
    let* qid := need item.(ji_question_id) ExnJoinInfo in
    let query := query ++ nl ++ "LEFT JOIN application_data_answer " ++ data_conn
      ++ " ON app.id = " ++ data_conn ++ ".application_id AND " ++ data_conn
      ++ ".question_id = " ++ string_of_Z qid in
    let* ds := need item.(ji_data_source) ExnJoinInfo in
    let* nm := need item.(ji_name) ExnJoinInfo in
    Ok (query ++ nl ++ "LEFT JOIN " ++ ds ++ " " ++ nm ++ " ON " ++ data_conn
      ++ ".id = " ++ nm ++ ".answer_ptr_id" ++ nl)
  else if String.eqb sr "REPEATING" then
    let* qid := need item.(ji_question_id) ExnJoinInfo in
    let query := query ++ nl ++ "LEFT JOIN application_data_answer " ++ data_conn
      ++ " ON initial_join_answers.repeating_answer_section_id = " ++ data_conn
      ++ ".repeating_answer_section_id AND " ++ data_conn
      ++ ".question_id = " ++ string_of_Z qid in
    let* ds := need item.(ji_data_source) ExnJoinInfo in
    let* nm := need item.(ji_name) ExnJoinInfo in
    Ok (query ++ nl ++ "LEFT JOIN " ++ ds ++ " " ++ nm ++ " ON " ++ data_conn
      ++ ".id = " ++ nm ++ ".answer_ptr_id" ++ nl)
  else Ok query.

(** One pass of the Add Joins loop, on [query] and [join_count]. *)
Definition add_join_step (acc : result (string * nat)) (p : nat * JoinItem)
  : result (string * nat) :=
  let '(index, item) := p in
  let* st := acc in
  let '(q, join_count) := st in
  let '(data_conn, join_count) := data_conn_of index join_count in
  let* q := join_clauses data_conn item q in
  Ok (q, join_count).

(** Add Joins: [join_count] starts at 1. *)
Definition add_joins (join_list : list JoinItem) (query : string) : result string :=
  let* st := fold_left add_join_step (enumerate join_list) (Ok (query, 1%nat)) in
  Ok (fst st).

(** Filter Project *)
Definition add_filter (src : Source) (query : string) : result string :=
  let query := query ++ nl ++ " WHERE " ++ nl in
  let* nm := need src.(src_name) ExnUnboundLocalE in
  let* pj := need src.(src_project) ExnUnboundLocalE in
  Ok (query ++ "    " ++ nm ++ ".project_id = " ++ string_of_Z pj).

(** Order Project *)
Definition add_order (src : Source) (query : string) : result string :=
  let query := query ++ nl ++ " ORDER BY" ++ nl in
  let* nm := need src.(src_name) ExnUnboundLocalE in
  let* od := need src.(src_order) ExnUnboundLocalE in
  Ok (query ++ nm ++ "." ++ od ++ ";").

(** The descriptor branch of [build_query]. *)
Definition compile_query (source : Source) (join_list : list JoinItem) : result string :=
  let query := "SELECT" ++ nl in
  let* query := add_source_fields source query in
  let* query := add_join_fields join_list query in
  let* query := add_from source query in
  let* query := add_joins join_list query in
  let* query := add_filter source query in
  let* query := add_order source query in
  need (unicode_escape_decode query) ExnUnicodeDecode.

(** [build_query(source=None, join_list=None, query=None)]; [None] arguments
    are Python's [None]. *)
Definition build_query (source : option Source) (join_list : option (list JoinItem))
    (query : option string) : result (option string) :=
  match query, source, join_list with
  | None, Some src, Some jl =>
      (* if (query == None) & (source != None) & (join_list != None) *)
      let* q := compile_query src jl in Ok (Some q)
  | Some q, None, None =>
      (* elif (query != None) & (source == None) & (join_list == None) *)
      Ok (Some q)
  | _, _, _ => Ok query
  end.

(** [build_schema(source=None, join_list=None, schema=None, exclude=None)] *)
Definition build_schema (source : option Source) (join_list : option (list JoinItem))
    (schema : option (list string)) (exclude : option (list string))
    : result (list string) :=
  let* schema_lst :=
    match schema, source, join_list with
    | None, Some src, Some jl =>
        let* fs := need src.(src_fields) ExnSchemaBuild in
        let from_source := fold_left (fun acc field =>
              fold_left (fun acc '(_, jn) => (acc ++ [jn])%list) field acc) fs [] in
        fold_left (fun acc item =>
            let* lst := acc in
            let* ifs := need item.(ji_fields) ExnSchemaBuild in
            Ok (fold_left (fun acc field =>
                  fold_left (fun acc '(_, jn) => (acc ++ [jn])%list) field acc) ifs lst))
          jl (Ok from_source)
    | Some s, None, None => Ok s
    | _, _, _ => Ok []
    end in
  match exclude with
  | Some ex => Ok (filter (fun field => negb (existsb (String.eqb field) ex)) schema_lst)
  | None => Ok schema_lst
  end.

(** The example source of [build_query_package] and two join items. *)
Definition app_source (alias : string) : Source := {|
  src_table := Some "applications_application";
  src_name := Some alias;
  src_fields := Some [[("application_number", "application_number");
                       ("created_at", "created_at")]];
  src_project := Some 34%Z;
  src_order := Some "id" |}.

Definition join_item (nm sr ds : string) (qid : Z) (fs : list dict) : JoinItem := {|
  ji_name := Some nm; ji_single_or_repeat := Some sr; ji_data_source := Some ds;
  ji_question_id := Some qid; ji_fields := Some fs |}.

Definition ex_joins : list JoinItem :=
  [join_item "hotel_name" "SINGLE" "application_data_textboxanswer" 1015 [[("value", "hotel_name")]];
   join_item "hotel_status" "REPEATING" "application_data_singleselectanswer" 1013 [[("value", "hotel_status")]];
   join_item "license_in" "REPEATING" "application_data_dateanswer" 1021 [[("value", "license_in")]]].

(** ** The result table and the [RDS] object ([rds_processor.py]) *)

(** A cell of a fetched row. *)
Inductive cell : Type :=
  | CNull
  | CInt (z : Z)
  | CStr (s : string).

Definition cell_eqb (a b : cell) : bool :=
  match a, b with
  | CNull, CNull => true
  | CInt x, CInt y => Z.eqb x y
  | CStr x, CStr y => String.eqb x y
  | _, _ => false
  end.

Definition row := list cell.

Fixpoint row_eqb (r1 r2 : row) : bool :=
  match r1, r2 with
  | [], [] => true
  | a :: r1, b :: r2 => cell_eqb a b && row_eqb r1 r2
  | _, _ => false
  end.

(** A pandas DataFrame: its column labels and its rows, in order. *)
Record DataFrame : Type := {
  columns : list string;
  rows : list row
}.

Definition empty_frame : DataFrame := {| columns := []; rows := [] |}.

(** [df.empty]: true when either axis has length zero. *)
Definition df_empty (df : DataFrame) : bool :=
  Nat.eqb (length df.(columns)) 0 || Nat.eqb (length df.(rows)) 0.

Definition row_in (r : row) (l : list row) : bool := existsb (row_eqb r) l.

(** [df.duplicated()]: a row is marked when an identical row precedes it. *)
Fixpoint duplicated_aux (seen : list row) (rs : list row) : list bool :=
  match rs with
  | [] => []
  | r :: rest => row_in r seen :: duplicated_aux (seen ++ [r])%list rest
  end.

Definition duplicated (df : DataFrame) : list bool := duplicated_aux [] df.(rows).

(** [df[mask]] *)
Fixpoint select_rows (rs : list row) (mask : list bool) : list row :=
  match rs, mask with
  | r :: rs, b :: mask => if b then r :: select_rows rs mask else select_rows rs mask
  | _, _ => []
  end.

Definition select (df : DataFrame) (mask : list bool) : DataFrame :=
  {| columns := df.(columns); rows := select_rows df.(rows) mask |}.

(** [df.drop_duplicates()]: keep the rows not marked by [duplicated]. *)
Definition drop_duplicates (df : DataFrame) : DataFrame :=
  select df (map negb (duplicated df)).

(** The attributes of an [RDS] object that the methods read and write. *)
Record RDS : Type := {
  rds_query : option string;            (* self.query *)
  rds_schema : list string;             (* self.schema, a list from build_schema *)
  fields_missing : list string;         (* self.fields_missing *)
  duplicates : DataFrame;               (* self.duplicates *)
  rds_df : DataFrame;                   (* self.df *)
  archive : option (DataFrame * DataFrame) (* self.archive: Duplicates, Data *)
}.

Definition set_fields_missing (st : RDS) (fm : list string) : RDS :=
  {| rds_query := st.(rds_query); rds_schema := st.(rds_schema); fields_missing := fm;
     duplicates := st.(duplicates); rds_df := st.(rds_df); archive := st.(archive) |}.

(** [RDS.check_schema(df)]: returns [check] and the updated object. *)
Definition check_schema (st : RDS) (df : DataFrame) : result (bool * RDS) :=
  if negb (df_empty df) then
    Ok (fold_left (fun '(check, st) field =>
          if negb (existsb (String.eqb field) df.(columns)) then
            (false, set_fields_missing st (st.(fields_missing) ++ [field])%list)
          else (check, st)) st.(rds_schema) (true, st))
  else Raise ExnEmptyDataFrame.

(** [RDS.query_to_df()], with [data] the table returned by
    [rds_sql_pull(self.cursor, self.query)].  The object is returned also
    when an exception is raised, as its attributes stay updated. *)
Definition query_to_df (st : RDS) (data : DataFrame) : result DataFrame * RDS :=
  match st.(rds_query) with
  | None => (Raise ExnEmptyDataFrame, st)
  | Some _ =>
    if negb (df_empty data) then
      match check_schema st data with
      | Raise e => (Raise e, st)
      | Ok (true, st) =>
          let data := drop_duplicates data in
          let dups := select data (duplicated data) in
          (Ok data, {| rds_query := st.(rds_query); rds_schema := st.(rds_schema);
                       fields_missing := st.(fields_missing); duplicates := dups;
                       rds_df := data; archive := Some (dups, data) |})
      | Ok (false, st) => (Raise ExnSchemaMismatch, st)
      end
    else (Raise ExnEmptyDataFrame, st)
  end.

Definition new_rds (query : option string) (schema : list string) : RDS := {|
  rds_query := query; rds_schema := schema; fields_missing := [];
  duplicates := empty_frame; rds_df := empty_frame; archive := None |}.

(** ** Archive rotation ([s3_bucket_util.monitor_and_maintain_archive_limit]) *)

Inductive rot_exn : Type :=
  | RotationStuck            (* "Script stuck in while loop while cleaning folders" *)
  | CorruptArchive (k : string) (* "Contents not found in Folder List in {folder_key}" *)
  | IndexError               (* folder_dates[0] on an empty list *)
  | DeleteFailed (k : string)   (* "Failed to delete excess folders" *)
  | MissingCommonPrefixes.   (* KeyError: result['CommonPrefixes'] after a deletion *)

Definition max_iterations : Z := 150.

(** [min(contents, key=LastModified)['LastModified']] for [t :: ts]. *)
Definition oldest (t : Z) (ts : list Z) : Z := fold_left Z.min ts t.

(** [folder_dates.sort(key=lambda x: x[1])]: a stable insertion sort. *)
Fixpoint insert_by_date (x : string * Z) (l : list (string * Z)) : list (string * Z) :=
  match l with
  | [] => [x]
  | y :: r => if Z.leb (snd x) (snd y) then x :: l else y :: insert_by_date x r
  end.

Definition sort_by_date (l : list (string * Z)) : list (string * Z) :=
  fold_right insert_by_date [] l.

Section Rotation.

(** The object-store client, for the bucket and prefix at hand.
    [list_subfolders s] is [result['CommonPrefixes']] of
    [list_objects_v2(Prefix=project_folder + archive_folder, Delimiter='/')]
    ([[]] when the key is absent); [list_contents s k] lists the
    [LastModified] stamps of [list_objects_v2(Prefix=k)['Contents']] ([[]]
    when absent); [delete_object s k] is the store after
    [delete_object(Key=k)], [None] when the call raises. *)
Variable Store : Type.
Variable list_subfolders : Store -> list string.
Variable list_contents : Store -> string -> list Z.
Variable delete_object : Store -> string -> option Store.
Variable limit : Z.

Record outcome : Type := {
  raised : option rot_exn;     (* [None]: the call returned *)
  deleted : list string;       (* the keys passed to delete_object, in order *)
  final : Store
}.

(** The [folder_dates] list: each sub-folder with its oldest stamp. *)
Fixpoint folder_dates (s : Store) (subfolders : list string)
  : rot_exn + list (string * Z) :=
  match subfolders with
  | [] => inr []
  | folder_key :: rest =>
      match list_contents s folder_key with
      | [] => inl (CorruptArchive folder_key)
      | t :: ts =>
          match folder_dates s rest with
          | inl e => inl e
          | inr l => inr ((folder_key, oldest t ts) :: l)
          end
      end
  end.

(** The [while folder_count > limit] loop.  [fuel] bounds the recursion;
    started at [max_iterations + 1] it never runs out before the
    iteration check raises. *)
Fixpoint rotate_loop (fuel : nat) (iteration_counter : Z) (subfolders : list string)
    (s : Store) (dels : list string) : outcome :=
  match fuel with
  | O => {| raised := Some RotationStuck; deleted := dels; final := s |}
  | S fuel =>
    if Z.gtb (Z.of_nat (length subfolders)) limit then
      let iteration_counter := iteration_counter + 1 in
      if Z.gtb iteration_counter max_iterations then
        {| raised := Some RotationStuck; deleted := dels; final := s |}
      else
        match folder_dates s subfolders with
        | inl e => {| raised := Some e; deleted := dels; final := s |}
        | inr fd =>
          match sort_by_date fd with
          | [] => {| raised := Some IndexError; deleted := dels; final := s |}
          | (oldest_folder_key, _) :: _ =>
            match delete_object s oldest_folder_key with
            | None => {| raised := Some (DeleteFailed oldest_folder_key);
                         deleted := dels; final := s |}
            | Some s' =>
              let dels := (dels ++ [oldest_folder_key])%list in
              match list_subfolders s' with
              | [] => {| raised := Some MissingCommonPrefixes; deleted := dels; final := s' |}
              | subfolders => rotate_loop fuel iteration_counter subfolders s' dels
              end
            end
          end
        end
    else {| raised := None; deleted := dels; final := s |}
  end.

Definition monitor_and_maintain_archive_limit (s : Store) : outcome :=
  match list_subfolders s with
  | [] => {| raised := None; deleted := []; final := s |}
  | subfolders =>
      rotate_loop (S (Z.to_nat max_iterations)) 0 subfolders s []
  end.

End Rotation.

(** *** Two object stores

    A store that reflects deletions: the sub-folders under the archive
    prefix in listing order, each with the stamps of its objects; deleting a
    sub-folder key removes the sub-folder from later listings. *)
Definition folder_store := list (string * list Z).

Definition fs_subfolders (s : folder_store) : list string := map fst s.

Definition fs_contents (s : folder_store) (k : string) : list Z :=
  match find (fun p => String.eqb (fst p) k) s with
  | Some (_, ts) => ts
  | None => []
  end.

Definition fs_delete (s : folder_store) (k : string) : option folder_store :=
  Some (filter (fun p => negb (String.eqb (fst p) k)) s).

Definition rotate_faithful (limit : Z) (s : folder_store) : outcome folder_store :=
  monitor_and_maintain_archive_limit folder_store fs_subfolders fs_contents fs_delete limit s.

(** A store whose listing never reflects a deletion. *)
Definition stale_delete (s : folder_store) (_ : string) : option folder_store := Some s.

Definition rotate_stale (limit : Z) (s : folder_store) : outcome folder_store :=
  monitor_and_maintain_archive_limit folder_store fs_subfolders fs_contents stale_delete limit s.

(** [n] sub-folders ["f0/"], ["f1/"], ...; folder [i] holds objects
    stamped [100 + i] and [200 + i]. *)
Definition numbered_folders (n : nat) : folder_store :=
  map (fun i => ("f" ++ string_of_nat i ++ "/", [200 + Z.of_nat i; 100 + Z.of_nat i]%Z))
      (seq 0 n).

(** Distinct keys, as a boolean test. *)
Fixpoint nodupb (l : list string) : bool :=
  match l with
  | [] => true
  | x :: r => negb (existsb (String.eqb x) r) && nodupb r
  end.

(** ** The query package ([query_package.py]) *)

(** [set_project(sel_project)]: a lookup in the project dictionary (the
    messages it prints are left out). *)
Definition set_project (sel_project : string) : result Z :=
  if String.eqb sel_project "Helene" then Ok 34%Z
  else if String.eqb sel_project "Mitlon" then Ok 37%Z
  else Raise ExnUnknownProject.

(** A query package dict [{'source': ..., 'join_list': ...}]; [None] is an
    absent key. *)
Record QueryPackage : Type := {
  qp_source : option Source;
  qp_join_list : option (list JoinItem)
}.

(** The source dict built by [build_query_package]. *)
Definition package_source (project_val : Z) : Source := {|
  src_table := Some "applications_application";
  src_name := Some "app";
  src_fields := Some [[("application_number", "application_number");
                       ("created_at", "created_at")]];
  src_project := Some project_val;
  src_order := Some "id" |}.

Definition build_query_package (project_val : Z) (questions : list JoinItem) : QueryPackage :=
  {| qp_source := Some (package_source project_val); qp_join_list := Some questions |}.

(** [unpack_query(query_package)] *)
Definition unpack_query (query_package : option QueryPackage)
  : result (option Source * option (list JoinItem)) :=
  match query_package with
  | Some qp =>
      let* source := need qp.(qp_source) ExnNoSource in
      let* join_list := need qp.(qp_join_list) ExnNoJoinList in
      Ok (Some source, Some join_list)
  | None => Ok (None, None)
  end.

(** ** Pulling the table and building an [RDS] object ([rds_processor.py]) *)

(** [rds_sql_pull(cursor, query)]. The cursor is the function that runs a
    query, fetches its rows and builds the DataFrame from them; [None] is a
    failure of any of these, which both handlers re-raise as a pull error. *)
Definition rds_sql_pull (cursor : string -> option DataFrame) (query : string)
  : result DataFrame :=
  need (cursor query) ExnSqlPull.

(** [RDS.query_to_df()] in full: [query_to_df] above is the part after
    [rds_sql_pull], which runs only when [self.query] is not [None]. *)
Definition query_to_df_pull (st : RDS) (cursor : string -> option DataFrame)
  : result DataFrame * RDS :=
  match st.(rds_query) with
  | None => (Raise ExnEmptyDataFrame, st)
  | Some q =>
      match rds_sql_pull cursor q with
      | Raise e => (Raise e, st)
      | Ok data => query_to_df st data
      end
  end.

(** [RDS(conn, cursor, query_package, auto, schema, exclude, query)]: the
    object built, or the exception the constructor raises. *)
Definition rds_init (query_package : option QueryPackage) (auto : bool)
    (schema exclude : option (list string)) (query : option string)
    (cursor : string -> option DataFrame) : result RDS :=
  let* unpacked := unpack_query query_package in
  let '(source, join_list) := unpacked in
  let* schema := build_schema source join_list schema exclude in
  let* query := build_query source join_list query in
  let st := new_rds query schema in
  if auto then
    match query_to_df_pull st cursor with
    | (Ok _, st') => Ok st'
    | (Raise e, _) => Raise e
    end
  else Ok st.

(** ** Uploads to the bucket ([s3_bucket_util.py]) *)

Inductive s3_exn : Type :=
  | ClientError                  (* an exception of a boto3 call *)
  | OverwriteFailed              (* "Failed to Overwrite Active csv file" *)
  | UpdateFailed (inner : s3_exn) (* "Could not update active csv file ...: {e}" *)
  | DuplicatesUploadFailed       (* "Failed to Upload Duplicates Entries to S3" *)
  | ArchivedDataUploadFailed     (* "Failed to Upload Archived Data to S3" *)
  | NoItems                      (* AttributeError: a list has no [items()] *)
  | CycleFailed (inner : s3_exn) (* "Failed to Cycle Through RDS Cleaning Versions ..." *)
  | CleanFailed (inner : rot_exn) (* "Failed to Clean Archive Folder before Upload" *)
  | FolderUploadFailed           (* "Failed to Upload {date_folder} Archive Folder" *)
  | PackageUploadFailed (inner : s3_exn).
    (* "Failed to Upload Archive Cleaning Versions CSVs to {date_folder} ..." *)

(** The [archive_package] argument: the attribute [RDS.archive], the list
    [[]] until [query_to_df] succeeds, then a dict of DataFrames. *)
Inductive ArchivePackage : Type :=
  | ArchiveList
  | ArchiveDict (items : list (string * DataFrame)).

Definition rds_archive (st : RDS) : ArchivePackage :=
  match st.(archive) with
  | None => ArchiveList
  | Some (dups, df) => ArchiveDict [("Duplicates", dups); ("Data", df)]
  end.

Section S3.

Variable Store : Type.
(** [list_objects_v2(Prefix=p)]: [None] when the call raises, [Some None]
    when the answer has no ['Contents'], else the keys of ['Contents']. *)
Variable list_objects : Store -> string -> option (option (list string)).
(** The ['CommonPrefixes'] of a listing with [Delimiter='/'], and the
    ['LastModified'] stamps of the objects under a prefix. *)
Variable list_prefixes : Store -> string -> list string.
Variable list_stamps : Store -> string -> list Z.
(** [delete_object] and [put_object(Key, Body)]: [None] when the call raises;
    a body of [None] is a [put_object] without [Body]. *)
Variable delete_object : Store -> string -> option Store.
Variable put_object : Store -> string -> option string -> option Store.
(** [DataFrame.to_csv()] *)
Variable to_csv : DataFrame -> string.

(** [update_active_data(...)]: the exception raised, if any, and the store. *)
Definition update_active_data (s : Store) (project_folder active_folder file_name : string)
    (data : DataFrame) : option s3_exn * Store :=
  let folder_prefix := project_folder ++ active_folder ++ file_name in
  match list_objects s folder_prefix with
  | None => (Some (UpdateFailed ClientError), s)
  | Some contents =>
      let file_exists :=
        match contents with
        | Some keys => existsb (fun key => String.eqb key folder_prefix) keys
        | None => false
        end in
      if file_exists then
        match put_object s folder_prefix (Some (to_csv data)) with
        | Some s' => (None, s')
        | None => (Some (UpdateFailed OverwriteFailed), s)
        end
      else
        match put_object s folder_prefix (Some (to_csv data)) with
        | Some s' => (None, s')
        | None => (Some (UpdateFailed ClientError), s)
        end
  end.

(** The loop of [add_archive_package] over [archive_package.items()];
    [now] is the formatted [datetime.now()] of the ["Data"] upload. *)
Fixpoint archive_items_loop (s : Store) (project_folder archive_folder date_folder : string)
    (now : string) (items : list (string * DataFrame)) : option s3_exn * Store :=
  match items with
  | [] => (None, s)
  | (section, content) :: rest =>
      if String.eqb section "Duplicates" then
        match put_object s (project_folder ++ archive_folder ++ date_folder ++ "Duplicates.csv")
                (Some (to_csv content)) with
        | Some s' => archive_items_loop s' project_folder archive_folder date_folder now rest
        | None => (Some DuplicatesUploadFailed, s)
        end
      else if String.eqb section "Data" then
        match put_object s (project_folder ++ archive_folder ++ date_folder
                              ++ "Archived-Data-" ++ now ++ ".csv")
                (Some (to_csv content)) with
        | Some s' => archive_items_loop s' project_folder archive_folder date_folder now rest
        | None => (Some ArchivedDataUploadFailed, s)
        end
      else archive_items_loop s project_folder archive_folder date_folder now rest
  end.

(** [add_archive_package(...)] *)
Definition add_archive_package (s : Store) (project_folder archive_folder date_folder : string)
    (archive_package : ArchivePackage) (now : string) : option s3_exn * Store :=
  match archive_package with
  | ArchiveList => (Some (CycleFailed NoItems), s)
  | ArchiveDict items =>
      let '(e, s') := archive_items_loop s project_folder archive_folder date_folder now items in
      (option_map CycleFailed e, s')
  end.

(** The rotation of [monitor_and_maintain_archive_limit] on the archive
    folder [folder_prefix]. *)
Definition rotate_archive (s : Store) (folder_prefix : string) (limit : Z) : outcome Store :=
  monitor_and_maintain_archive_limit Store (fun s => list_prefixes s folder_prefix)
    list_stamps delete_object limit s.

(** [add_archive(...)]; [now_folder] and [now_data] are the two formatted
    [datetime.now()] readings. Each of the three steps has its own handler,
    which raises its own exception [from] the one caught. *)
Definition add_archive (s : Store) (project_folder archive_folder : string) (limit : Z)
    (archive_package : ArchivePackage) (now_folder now_data : string) : option s3_exn * Store :=
  let folder_prefix := project_folder ++ archive_folder in
  let o := rotate_archive s folder_prefix limit in
  match raised Store o with
  | Some e => (Some (CleanFailed e), final Store o)
  | None =>
      let date_folder := now_folder ++ "/" in
      match put_object (final Store o) (folder_prefix ++ date_folder) None with
      | None => (Some FolderUploadFailed, final Store o)
      | Some s1 =>
          match add_archive_package s1 project_folder archive_folder date_folder
                  archive_package now_data with
          | (Some e, s2) => (Some (PackageUploadFailed e), s2)
          | (None, s2) => (None, s2)
          end
      end
  end.

End S3.

(** ** Vocabulary of the properties *)

(** [pat] occurs in [s]. *)
Fixpoint contains (pat s : string) : bool :=
  prefix pat s || match s with
                  | EmptyString => false
                  | String _ r => contains pat r
                  end.

(** The bridge alias the compiler gives to the join item at [index]. *)
Definition bridge (index : nat) : string :=
  match index with
  | O => "initial_join_answers"
  | _ => "join_answers_" ++ string_of_nat index
  end.

(** The answer-header join of a REPEATING item, as described by the spec. *)
Definition repeating_header_join (index : nat) (qid : Z) : string :=
  nl ++ "LEFT JOIN application_data_answer " ++ bridge index
     ++ " ON initial_join_answers.repeating_answer_section_id = " ++ bridge index
     ++ ".repeating_answer_section_id AND " ++ bridge index
     ++ ".question_id = " ++ string_of_Z qid.

(** The declared output names of a list of field dicts, in order. *)
Definition output_names (fs : list dict) : list string := flat_map (map snd) fs.

(** A text free of backslashes, on which [unicode_escape] decoding is the
    identity. *)
Definition plain (s : string) : bool :=
  forallb (fun c => negb (Ascii.eqb c bslash)) (list_ascii_of_string s).

Definition plain_opt (o : option string) : bool :=
  match o with Some s => plain s | None => true end.

Definition plain_fields (o : option (list dict)) : bool :=
  match o with
  | Some fs => forallb (forallb (fun '(tn, jn) => plain tn && plain jn)) fs
  | None => true
  end.

(** Every text of a query package is free of backslashes. *)
Definition source_plain (src : Source) : bool :=
  plain_opt src.(src_table) && plain_opt src.(src_name) && plain_fields src.(src_fields)
  && plain_opt src.(src_order).

Definition joins_plain (jl : list JoinItem) : bool :=
  forallb (fun it => plain_opt it.(ji_name) && plain_opt it.(ji_data_source)
                     && plain_fields it.(ji_fields)) jl.

Definition package_plain (src : Source) (jl : list JoinItem) : bool :=
  source_plain src && joins_plain jl.

(** The folder of a [folder_store] whose oldest object is earliest. *)
Definition oldest_of (ts : list Z) : Z :=
  match ts with
  | [] => 0%Z
  | t :: r => oldest t r
  end.

Definition earliest_folder (s : folder_store) (k : string) : Prop :=
  exists ts, In (k, ts) s /\
    forall k' ts', In (k', ts') s -> (oldest_of ts <= oldest_of ts')%Z.

Definition remove_folder (s : folder_store) (k : string) : folder_store :=
  filter (fun p => negb (String.eqb (fst p) k)) s.

(** Each deletion removes a sub-folder with the earliest oldest object
    among those remaining at that step. *)
Fixpoint oldest_first (s : folder_store) (dels : list string) : Prop :=
  match dels with
  | [] => True
  | k :: rest => earliest_folder s k /\ oldest_first (remove_folder s k) rest
  end.

(** The SELECT lines [add_source_fields] writes for the (flattened) source
    field entries, each ending in a comma. *)
Fixpoint source_lines (nm : string) (entries : list (string * string)) : string :=
  match entries with
  | [] => ""
  | (tn, jn) :: rest =>
      "    " ++ nm ++ "." ++ tn ++ " AS " ++ jn ++ "," ++ nl ++ source_lines nm rest
  end.

(** The WHERE and ORDER BY tail of a compiled query. *)
Definition filter_order_tail (nm : string) (pj : Z) (od : string) : string :=
  nl ++ " WHERE " ++ nl ++ "    " ++ nm ++ ".project_id = " ++ string_of_Z pj
  ++ nl ++ " ORDER BY" ++ nl ++ nm ++ "." ++ od ++ ";".

Definition is_some {A : Type} (o : option A) : bool :=
  match o with Some _ => true | None => false end.

(** A join item dict with all the keys the compiler reads. *)
Definition item_complete (it : JoinItem) : bool :=
  is_some it.(ji_name) && is_some it.(ji_single_or_repeat) && is_some it.(ji_data_source)
  && is_some it.(ji_question_id) && is_some it.(ji_fields).

(** The value of a result passed through [f]. *)
Definition res_map {A B : Type} (f : A -> B) (r : result A) : result B :=
  let* x := r in Ok (f x).

(** A bucket that records the keys written, latest first; a listing with a
    prefix returns the recorded keys that start with it (no ['Contents']
    when there is none), and its archive folder has no sub-folders. *)
Definition write_log := list string.

Definition log_list (s : write_log) (p : string) : option (option (list string)) :=
  match filter (prefix p) s with
  | [] => Some None
  | ks => Some (Some ks)
  end.

Definition log_prefixes (_ : write_log) (_ : string) : list string := [].

Definition log_stamps (_ : write_log) (_ : string) : list Z := [].

Definition log_delete (s : write_log) (_ : string) : option write_log := Some s.

Definition log_put (s : write_log) (k : string) (_ : option string) : option write_log :=
  Some (k :: s).

Definition log_csv (_ : DataFrame) : string := "".


(** * Properties *)

(** ** The query compiler *)

(** C2: given both a literal query and a descriptor pair, [build_query]
    raises nothing: the literal query is returned as it is. *)
Lemma build_query_both_counterexample :
  build_query (Some (app_source "app")) (Some ex_joins) (Some "SELECT 1;")
  = Ok (Some "SELECT 1;").
Proof. reflexivity. Qed.

(** C2 (amended): whenever a literal query and a descriptor pair are both
    supplied, the compiler returns the literal query unchanged, without
    raising. *)
Theorem build_query_both_returns_literal :
  forall src jl q, build_query (Some src) (Some jl) (Some q) = Ok (Some q).
Proof. intros src jl q. reflexivity. Qed.

(** C6: with neither a descriptor pair nor a literal query, [build_query]
    raises nothing and returns [None]. *)
Lemma build_query_nothing_counterexample : build_query None None None = Ok None.
Proof. reflexivity. Qed.

(** C6 (amended): when no literal query is given and the descriptor pair is
    incomplete (source or join list absent), the compiler returns [None]
    without raising. *)
Theorem build_query_no_input_returns_none :
  forall src jl, src = None \/ jl = None -> build_query src jl None = Ok None.
Proof.
  intros src jl [-> | ->]; [reflexivity | destruct src; reflexivity].
Qed.

Lemma build_query_no_input_returns_none_witness :
  build_query None (Some ex_joins) None = Ok None.
Proof. apply (build_query_no_input_returns_none None (Some ex_joins)). left; reflexivity. Defined.

(** C3: with a source alias other than [app], the SINGLE answer-header join
    still compares [app.id], not the declared alias. *)
Theorem single_join_hardcodes_app_alias :
  match build_query (Some (app_source "src"))
          (Some [join_item "x" "SINGLE" "application_data_textboxanswer" 10 [[("value", "x")]]])
          None with
  | Ok (Some sql) =>
      contains ("ON app.id = initial_join_answers.application_id AND "
                ++ "initial_join_answers.question_id = 10") sql = true
      /\ contains "src.id = " sql = false
      /\ contains "FROM" sql = true
      /\ contains "    applications_application src" sql = true
  | _ => False
  end.
Proof. vm_compute. repeat split. Qed.

(** ** Schema validation and duplicate removal *)

(** C1: on a table holding one row twice, [query_to_df] drops the repeat but
    the Duplicate Table it stores (also archived as ["Duplicates"]) has no
    rows, since [duplicated()] is taken after [drop_duplicates()]. *)
Theorem query_to_df_duplicates_lost :
  let data := {| columns := ["a"]; rows := [[CInt 1]; [CInt 1]] |} in
  let '(r, st) := query_to_df (new_rds (Some "q") ["a"]) data in
  r = Ok {| columns := ["a"]; rows := [[CInt 1]] |}
  /\ (duplicates st).(rows) = []
  /\ archive st = Some ({| columns := ["a"]; rows := [] |},
                        {| columns := ["a"]; rows := [[CInt 1]] |}).
Proof. vm_compute. repeat split. Qed.

Lemma existsb_eqb_In (x : string) (l : list string) :
  existsb (String.eqb x) l = true <-> In x l.
Proof.
  rewrite existsb_exists. split.
  - intros [y [Hy Hxy]]. apply String.eqb_eq in Hxy. subst. exact Hy.
  - intros H. exists x. split; [exact H | apply String.eqb_refl].
Qed.

(** The schema loop of [check_schema]: it records, in schema order, the
    fields absent from the columns. *)
Lemma check_schema_loop (cols : list string) (schema : list string) :
  forall check st,
  let r := fold_left (fun '(check, st) field =>
      if negb (existsb (String.eqb field) cols) then
        (false, set_fields_missing st (st.(fields_missing) ++ [field])%list)
      else (check, st)) schema (check, st) in
  fst r = check && forallb (fun f => existsb (String.eqb f) cols) schema
  /\ fields_missing (snd r)
     = (st.(fields_missing) ++ filter (fun f => negb (existsb (String.eqb f) cols)) schema)%list.
Proof.
  induction schema as [| f rest IH]; intros check st; simpl.
  - rewrite andb_true_r, app_nil_r. split; reflexivity.
  - destruct (existsb (String.eqb f) cols) eqn:Hf; simpl.
    + apply IH.
    + destruct (IH false (set_fields_missing st (fields_missing st ++ [f])%list)) as [H1 H2].
      rewrite H1, H2. rewrite andb_false_r. simpl. rewrite <- app_assoc. split; reflexivity.
Qed.

Lemma check_schema_result (st : RDS) (df : DataFrame) :
  df_empty df = false ->
  exists st', check_schema st df =
    Ok (forallb (fun f => existsb (String.eqb f) df.(columns)) st.(rds_schema), st')
  /\ fields_missing st' = (st.(fields_missing)
       ++ filter (fun f => negb (existsb (String.eqb f) df.(columns))) st.(rds_schema))%list.
Proof.
  intros Hne. unfold check_schema. rewrite Hne. simpl.
  destruct (check_schema_loop df.(columns) st.(rds_schema) true st) as [H1 H2].
  destruct (fold_left _ _ _) as [b st'] eqn:E. simpl in H1, H2.
  exists st'. rewrite H1. split; [reflexivity | exact H2].
Qed.

Lemma filter_single {A : Type} (p : A -> bool) (c : A) (l : list A) :
  NoDup l -> In c l -> (forall x, In x l -> p x = true <-> x = c) -> filter p l = [c].
Proof.
  induction l as [| y r IH]; intros Hnd Hin Hp; [destruct Hin |].
  inversion Hnd as [| ? ? Hy Hr]; subst. simpl.
  destruct (p y) eqn:Hpy.
  - assert (y = c) by (apply Hp; [left; reflexivity | exact Hpy]). subst.
    f_equal. clear IH Hin.
    induction r as [| z r' IHr]; [reflexivity |]. simpl.
    destruct (p z) eqn:Hpz.
    + exfalso. apply Hy. left. apply (Hp z); [right; left; reflexivity | exact Hpz].
    + inversion Hr as [| ? ? Hz Hr']; subst.
      assert (Hcr : ~ In c r') by (intros Hc; apply Hy; right; exact Hc).
      apply IHr.
      * exact Hcr.
      * intros x [<- | Hx].
        -- apply (Hp c). left. reflexivity.
        -- apply (Hp x). right. right. exact Hx.
      * constructor; assumption.
      * exact Hr'.
  - destruct Hin as [-> | Hin].
    + exfalso. assert (p c = true) by (apply Hp; [left | ]; reflexivity). congruence.
    + apply IH; auto. intros x Hx. apply Hp. right. exact Hx.
Qed.

(** C9: on a non-empty table missing exactly one expected column, with an
    empty missing-field record, validation returns false and the record then
    holds that column and nothing else (exactly [[c]] when the schema names
    each column once). *)
Theorem check_schema_one_missing :
  forall (st : RDS) (df : DataFrame) (c : string),
  df_empty df = false ->
  fields_missing st = [] ->
  In c st.(rds_schema) -> ~ In c df.(columns) ->
  (forall x, In x st.(rds_schema) -> x <> c -> In x df.(columns)) ->
  exists st', check_schema st df = Ok (false, st')
    /\ (forall x, In x (fields_missing st') <-> x = c)
    /\ (NoDup st.(rds_schema) -> fields_missing st' = [c]).
Proof.
  intros st df c Hne Hfm Hc Hnc Hothers.
  destruct (check_schema_result st df Hne) as [st' [Hres Hmiss]].
  rewrite Hfm in Hmiss. simpl in Hmiss.
  assert (Hp : forall x, In x st.(rds_schema) ->
            negb (existsb (String.eqb x) df.(columns)) = true <-> x = c).
  { intros x Hx. rewrite negb_true_iff. split.
    - intros Hn. destruct (String.eqb_spec x c) as [-> | Hxc]; [reflexivity |].
      exfalso. apply (Hothers x Hx), existsb_eqb_In in Hxc. rewrite Hxc in Hn. discriminate.
    - intros ->. destruct (existsb (String.eqb c) df.(columns)) eqn:E; [|reflexivity].
      exfalso. apply Hnc. apply existsb_eqb_In. exact E. }
  exists st'. split; [| split].
  - rewrite Hres. f_equal. f_equal.
    destruct (forallb _ _) eqn:E; [| reflexivity]. exfalso.
    rewrite forallb_forall in E. apply Hnc. apply existsb_eqb_In. apply E. exact Hc.
  - intros x. rewrite Hmiss, filter_In. split.
    + intros [Hx Hn]. apply Hp; assumption.
    + intros ->. split; [exact Hc | apply Hp; [exact Hc | reflexivity]].
  - intros Hnd. rewrite Hmiss. apply filter_single; assumption.
Qed.

Lemma check_schema_one_missing_witness :
  exists st', check_schema (new_rds (Some "q") ["a"; "c"; "b"])
                {| columns := ["a"; "b"]; rows := [[CInt 1; CStr "x"]] |} = Ok (false, st')
    /\ (forall x, In x (fields_missing st') <-> x = "c")
    /\ (NoDup ["a"; "c"; "b"] -> fields_missing st' = ["c"]).
Proof.
  apply (check_schema_one_missing (new_rds (Some "q") ["a"; "c"; "b"])
           {| columns := ["a"; "b"]; rows := [[CInt 1; CStr "x"]] |} "c").
  - reflexivity.
  - reflexivity.
  - simpl. right. left. reflexivity.
  - simpl. intros [H | [H | []]]; discriminate.
  - simpl. intros x [<- | [<- | [<- | []]]] Hx; auto.
Defined.

Lemma filter_none {A : Type} (p : A -> bool) (l : list A) :
  (forall x, In x l -> p x = false) -> filter p l = [].
Proof.
  induction l as [| y r IH]; intros H; [reflexivity |]. simpl.
  rewrite H by (left; reflexivity). apply IH. intros x Hx. apply H. right. exact Hx.
Qed.

(** C10: validation checks presence only: on a non-empty table whose columns
    include every schema field (extra columns allowed, any order), it returns
    true and leaves the missing-field record as it was (so an empty record
    stays empty). *)
Theorem check_schema_superset :
  forall (st : RDS) (df : DataFrame),
  df_empty df = false ->
  (forall x, In x st.(rds_schema) -> In x df.(columns)) ->
  exists st', check_schema st df = Ok (true, st')
    /\ fields_missing st' = fields_missing st.
Proof.
  intros st df Hne Hsub.
  destruct (check_schema_result st df Hne) as [st' [Hres Hmiss]].
  assert (Hall : forallb (fun f => existsb (String.eqb f) df.(columns)) st.(rds_schema) = true).
  { apply forallb_forall. intros x Hx. apply existsb_eqb_In. auto. }
  exists st'. rewrite Hres, Hall. split; [reflexivity |].
  rewrite Hmiss.
  assert (Hnil : filter (fun f => negb (existsb (String.eqb f) df.(columns))) st.(rds_schema) = []).
  { rewrite forallb_forall in Hall. apply filter_none.
    intros x Hx. rewrite Hall by exact Hx. reflexivity. }
  rewrite Hnil. apply app_nil_r.
Qed.

Lemma check_schema_superset_witness :
  exists st', check_schema (new_rds (Some "q") ["b"; "a"])
                {| columns := ["a"; "extra"; "b"]; rows := [[CInt 1; CNull; CStr "x"]] |}
              = Ok (true, st')
    /\ fields_missing st' = fields_missing (new_rds (Some "q") ["b"; "a"]).
Proof.
  apply check_schema_superset.
  - reflexivity.
  - simpl. intros x [<- | [<- | []]]; auto.
Defined.

(** ** The expected schema *)

Lemma schema_dict_loop (field : dict) : forall acc : list string,
  fold_left (fun acc '(_, jn) => (acc ++ [jn])%list) field acc = (acc ++ map snd field)%list.
Proof.
  induction field as [| [tn jn] rest IH]; intros acc; simpl.
  - symmetry. apply app_nil_r.
  - rewrite IH. rewrite <- app_assoc. reflexivity.
Qed.

Lemma schema_fields_loop (fs : list dict) : forall acc : list string,
  fold_left (fun acc field =>
      fold_left (fun acc '(_, jn) => (acc ++ [jn])%list) field acc) fs acc
  = (acc ++ output_names fs)%list.
Proof.
  induction fs as [| field rest IH]; intros acc; simpl.
  - symmetry. apply app_nil_r.
  - rewrite IH, schema_dict_loop. unfold output_names. rewrite <- app_assoc. reflexivity.
Qed.

Lemma schema_joins_loop (jl : list JoinItem) : forall (jfs : list (list dict)) acc,
  map ji_fields jl = map Some jfs ->
  fold_left (fun acc item =>
      let* lst := acc in
      let* ifs := need item.(ji_fields) ExnSchemaBuild in
      Ok (fold_left (fun acc field =>
            fold_left (fun acc '(_, jn) => (acc ++ [jn])%list) field acc) ifs lst))
    jl (Ok acc)
  = Ok (acc ++ flat_map output_names jfs)%list.
Proof.
  induction jl as [| item rest IH]; intros [| ifs jfs] acc Hf; simpl in *;
    try discriminate.
  - rewrite app_nil_r. reflexivity.
  - injection Hf as Hi Hr. rewrite Hi. simpl.
    rewrite schema_fields_loop, (IH jfs _ Hr), <- app_assoc. reflexivity.
Qed.

(** C5: compiled from a query package with no exclusion list (and no
    explicit schema), the schema is the concatenation, source first, then
    each join item in order, of the declared output names; its length is
    the number of declared output fields. *)
Theorem build_schema_declared_names :
  forall (src : Source) (jl : list JoinItem) (fs : list dict) (jfs : list (list dict)),
  src.(src_fields) = Some fs ->
  map ji_fields jl = map Some jfs ->
  exists schema,
    build_schema (Some src) (Some jl) None None = Ok schema
    /\ schema = (output_names fs ++ flat_map output_names jfs)%list
    /\ length schema = (list_sum (map (@length _) fs)
                        + list_sum (map (fun ifs => list_sum (map (@length _) ifs)) jfs))%nat.
Proof.
  intros src jl fs jfs Hs Hj.
  exists (output_names fs ++ flat_map output_names jfs)%list.
  split; [| split; [reflexivity |]].
  - unfold build_schema. rewrite Hs. simpl.
    rewrite schema_fields_loop, (schema_joins_loop jl jfs _ Hj). reflexivity.
  - assert (Hlen : forall fs' : list dict,
               length (output_names fs') = list_sum (map (@length _) fs')).
    { induction fs' as [| d r IH]; [reflexivity |].
      unfold output_names in *. simpl. rewrite length_app, length_map, IH. reflexivity. }
    rewrite length_app, Hlen. f_equal.
    clear Hj. induction jfs as [| ifs r IH]; [reflexivity |].
    simpl. rewrite length_app, Hlen, IH. reflexivity.
Qed.

Lemma build_schema_declared_names_witness :
  exists schema,
    build_schema (Some (app_source "app")) (Some ex_joins) None None = Ok schema
    /\ schema = (output_names [[("application_number", "application_number");
                                ("created_at", "created_at")]]
                 ++ flat_map output_names [[[("value", "hotel_name")]];
                                           [[("value", "hotel_status")]];
                                           [[("value", "license_in")]]])%list
    /\ length schema = (list_sum (map (@length _) [[("application_number", "application_number");
                                ("created_at", "created_at")]])
                        + list_sum (map (fun ifs => list_sum (map (@length _) ifs))
                                        [[[("value", "hotel_name")]];
                                         [[("value", "hotel_status")]];
                                         [[("value", "license_in")]]]))%nat.
Proof. apply build_schema_declared_names; reflexivity. Defined.

(** ** Join predicates of REPEATING items *)

Lemma str_app_assoc (a b c : string) : ((a ++ b) ++ c)%string = (a ++ (b ++ c))%string.
Proof. induction a as [| x a IH]; simpl; [reflexivity | rewrite IH; reflexivity]. Qed.

Lemma str_app_nil_r (a : string) : (a ++ "")%string = a.
Proof. induction a as [| x a IH]; simpl; [reflexivity | rewrite IH; reflexivity]. Qed.

Lemma plain_app (a b : string) : plain (a ++ b) = plain a && plain b.
Proof.
  induction a as [| c a IH]; [reflexivity |].
  unfold plain in *. simpl. rewrite IH. apply andb_assoc.
Qed.

Lemma plain_uint (d : Decimal.uint) : plain (string_of_uint d) = true.
Proof. induction d; simpl; try reflexivity; exact IHd. Qed.

Lemma plain_string_of_Z (z : Z) : plain (string_of_Z z) = true.
Proof. unfold string_of_Z. destruct (Z.to_int z) as [u | u]; [apply plain_uint | exact (plain_uint u)]. Qed.

Lemma plain_string_of_nat (n : nat) : plain (string_of_nat n) = true.
Proof. apply plain_uint. Qed.

(** [unicode_escape] decoding leaves a backslash-free text as it is. *)
Lemma decode_plain (s : string) : plain s = true -> unicode_escape_decode s = Some s.
Proof.
  induction s as [| c r IH]; intros H; [reflexivity |].
  unfold plain in H. simpl in H. apply andb_prop in H as [Hc Hr].
  simpl. apply negb_true_iff in Hc. rewrite Hc. rewrite IH by exact Hr. reflexivity.
Qed.

Lemma plain_cons (c : ascii) (s : string) :
  plain (String c s) = negb (Ascii.eqb c bslash) && plain s.
Proof. reflexivity. Qed.

Ltac plain_solve :=
  repeat (rewrite plain_app || rewrite plain_cons);
  repeat (apply andb_true_intro; split);
  first [ assumption | reflexivity | apply plain_string_of_Z | apply plain_string_of_nat ].

Lemma fold_raise {A B : Type} (f : result A -> B -> result A) (l : list B) (e : exn) :
  (forall e b, f (Raise e) b = Raise e) -> fold_left f l (Raise e) = Raise e.
Proof. intros Hf. revert e. induction l as [| b l IH]; intros e; simpl; [| rewrite Hf]; auto. Qed.

(** A property of the accumulated value kept by every step of a loop of
    [try]-guarded steps holds of the loop's result. *)
Lemma fold_inv {A B : Type} (P : A -> Prop) (f : result A -> B -> result A) (l : list B) :
  (forall e b, f (Raise e) b = Raise e) ->
  (forall a b a', In b l -> P a -> f (Ok a) b = Ok a' -> P a') ->
  forall a r, P a -> fold_left f l (Ok a) = Ok r -> P r.
Proof.
  intros Hr Hs. induction l as [| b l IH]; intros a r Ha H; simpl in H.
  - injection H as <-. exact Ha.
  - destruct (f (Ok a) b) as [a' | e] eqn:E.
    + apply (IH (fun a b a' Hin => Hs a b a' (or_intror Hin)) a' r); [| exact H].
      apply (Hs a b a' (or_introl eq_refl) Ha E).
    + rewrite fold_raise in H by exact Hr. discriminate.
Qed.

Lemma in_enumerate {A : Type} (k i : nat) (x : A) (l : list A) :
  In (i, x) (enumerate_from k l) -> In x l.
Proof.
  revert k. induction l as [| y l IH]; intros k H; [destruct H |].
  destruct H as [H | H]; [injection H as _ ->; left; reflexivity | right; exact (IH _ H)].
Qed.

Lemma plain_fields_in (fs : list dict) (field : dict) (tn jn : string) :
  plain_fields (Some fs) = true -> In field fs -> In (tn, jn) field ->
  plain tn = true /\ plain jn = true.
Proof.
  intros H Hf Hp. simpl in H. rewrite forallb_forall in H.
  specialize (H _ Hf). rewrite forallb_forall in H. specialize (H _ Hp).
  simpl in H. apply andb_prop in H. exact H.
Qed.

Lemma add_source_fields_plain (src : Source) (q q' : string) :
  plain_opt src.(src_name) = true -> plain_fields src.(src_fields) = true ->
  plain q = true -> add_source_fields src q = Ok q' -> plain q' = true.
Proof.
  intros Hn Hf Hq H. unfold add_source_fields in H.
  destruct (src_fields src) as [fs |]; [| discriminate]. simpl in H.
  revert H. apply (fold_inv (fun q => plain q = true)); [| | exact Hq].
  - intros e field. apply fold_raise. intros e' [tn jn]. reflexivity.
  - intros a field a' Hin Ha Hfold. revert Hfold.
    apply (fold_inv (fun q => plain q = true)); [| | exact Ha].
    + intros e [tn jn]. reflexivity.
    + intros a0 [tn jn] a1 Hin' Ha0 Hstep.
      destruct (src_name src) as [nm |]; simpl in Hstep; [| discriminate].
      injection Hstep as <-. simpl in Hn.
      destruct (plain_fields_in fs field tn jn Hf Hin Hin') as [Ht Hj].
      plain_solve.
Qed.

Lemma add_join_fields_plain (jl : list JoinItem) (q q' : string) :
  joins_plain jl = true ->
  plain q = true -> add_join_fields jl q = Ok q' -> plain q' = true.
Proof.
  intros Hp Hq H. unfold joins_plain in Hp. rewrite forallb_forall in Hp. unfold add_join_fields in H.
  revert H. apply (fold_inv (fun q => plain q = true)); [| | exact Hq].
  - intros e [i it]. reflexivity.
  - intros a [index item] a' Hin Ha Hstep.
    apply in_enumerate in Hin. specialize (Hp _ Hin).
    apply andb_prop in Hp as [Hp Hf]. apply andb_prop in Hp as [Hn _].
    simpl in Hstep. destruct (ji_fields item) as [fs |]; simpl in Hstep; [| discriminate].
    revert Hstep. apply (fold_inv (fun q => plain q = true)); [| | exact Ha].
    + intros e field. apply fold_raise. intros e' [tn jn]. reflexivity.
    + intros a0 field a1 Hinf Ha0 Hfold. revert Hfold.
      apply (fold_inv (fun q => plain q = true)); [| | exact Ha0].
      * intros e [tn jn]. reflexivity.
      * intros a2 [tn jn] a3 Hin' Ha2 Hs.
        destruct (ji_name item) as [nm |]; simpl in Hs; [| discriminate].
        simpl in Hn. destruct (plain_fields_in fs field tn jn Hf Hinf Hin') as [Ht Hj].
        destruct (_ && _); injection Hs as <-; plain_solve.
Qed.

Lemma add_from_plain (src : Source) (q q' : string) :
  source_plain src = true -> plain q = true -> add_from src q = Ok q' -> plain q' = true.
Proof.
  intros Hs Hq H. unfold source_plain in Hs.
  apply andb_prop in Hs as [Hs _]. apply andb_prop in Hs as [Hs _].
  apply andb_prop in Hs as [Ht Hn]. unfold add_from in H.
  destruct (src_table src) as [t |]; [| discriminate].
  destruct (src_name src) as [nm |]; [| discriminate].
  simpl in H, Ht, Hn. injection H as <-. plain_solve.
Qed.

Lemma data_conn_plain (index jc : nat) : plain (fst (data_conn_of index jc)) = true.
Proof. unfold data_conn_of. destruct (Nat.eqb index 0); simpl; plain_solve. Qed.

Lemma join_clauses_plain (dc : string) (item : JoinItem) (q q' : string) :
  plain dc = true -> plain_opt item.(ji_name) = true -> plain_opt item.(ji_data_source) = true ->
  plain q = true -> join_clauses dc item q = Ok q' -> plain q' = true.
Proof.
  intros Hdc Hn Hds Hq H. unfold join_clauses in H.
  destruct (ji_single_or_repeat item) as [sr |]; [| discriminate]. simpl in H.
  destruct (String.eqb sr "SINGLE"); [| destruct (String.eqb sr "REPEATING")];
    [| | injection H as <-; exact Hq];
    (destruct (ji_question_id item) as [qid |]; [| discriminate]);
    (destruct (ji_data_source item) as [ds |]; [| discriminate]);
    (destruct (ji_name item) as [nm |]; [| discriminate]);
    simpl in H, Hn, Hds; injection H as <-; plain_solve.
Qed.

Lemma add_joins_plain (jl : list JoinItem) (q q' : string) :
  joins_plain jl = true -> plain q = true -> add_joins jl q = Ok q' -> plain q' = true.
Proof.
  intros Hp Hq H. unfold joins_plain in Hp. rewrite forallb_forall in Hp.
  unfold add_joins in H.
  destruct (fold_left _ (enumerate jl) (Ok (q, 1%nat))) as [[q1 jc1] | e] eqn:E;
    [| discriminate].
  simpl in H. injection H as <-.
  change q1 with (fst (q1, jc1)). revert E.
  apply (fold_inv (fun st => plain (fst st) = true)); [| | exact Hq].
  - intros e [i it]. reflexivity.
  - intros [q0 jc0] [index item] [q2 jc2] Hin Ha Hstep.
    apply in_enumerate in Hin. specialize (Hp _ Hin).
    apply andb_prop in Hp as [Hp _]. apply andb_prop in Hp as [Hn Hds].
    simpl in Hstep. pose proof (data_conn_plain index jc0) as Hdc.
    destruct (data_conn_of index jc0) as [dc jc'].
    destruct (join_clauses dc item q0) as [q3 |] eqn:Ej; simpl in Hstep; [| discriminate].
    injection Hstep as <- <-. simpl.
    exact (join_clauses_plain dc item q0 q3 Hdc Hn Hds Ha Ej).
Qed.

Lemma add_filter_extends (src : Source) (q q' : string) :
  add_filter src q = Ok q' -> exists t, q' = (q ++ t)%string.
Proof.
  unfold add_filter. destruct (src_name src) as [nm |]; [| discriminate].
  destruct (src_project src) as [pj |]; [| discriminate].
  simpl. intros H. injection H as <-. eexists. rewrite str_app_assoc. reflexivity.
Qed.

Lemma add_order_extends (src : Source) (q q' : string) :
  add_order src q = Ok q' -> exists t, q' = (q ++ t)%string.
Proof.
  unfold add_order. destruct (src_name src) as [nm |]; [| discriminate].
  destruct (src_order src) as [od |]; [| discriminate].
  simpl. intros H. injection H as <-. eexists. rewrite str_app_assoc. reflexivity.
Qed.

Lemma add_filter_plain (src : Source) (q q' : string) :
  source_plain src = true -> plain q = true -> add_filter src q = Ok q' -> plain q' = true.
Proof.
  intros Hs Hq H. unfold source_plain in Hs.
  apply andb_prop in Hs as [Hs _]. apply andb_prop in Hs as [Hs _].
  apply andb_prop in Hs as [_ Hn]. unfold add_filter in H.
  destruct (src_name src) as [nm |]; [| discriminate].
  destruct (src_project src) as [pj |]; [| discriminate].
  simpl in H, Hn. injection H as <-. plain_solve.
Qed.

Lemma add_order_plain (src : Source) (q q' : string) :
  source_plain src = true -> plain q = true -> add_order src q = Ok q' -> plain q' = true.
Proof.
  intros Hs Hq H. unfold source_plain in Hs.
  apply andb_prop in Hs as [Hs Ho]. apply andb_prop in Hs as [Hs _].
  apply andb_prop in Hs as [_ Hn]. unfold add_order in H.
  destruct (src_name src) as [nm |]; [| discriminate].
  destruct (src_order src) as [od |]; [| discriminate].
  simpl in H, Hn, Ho. injection H as <-. plain_solve.
Qed.

Lemma join_clauses_extends (dc : string) (item : JoinItem) (q q' : string) :
  join_clauses dc item q = Ok q' -> exists t, q' = (q ++ t)%string.
Proof.
  unfold join_clauses. destruct (ji_single_or_repeat item) as [sr |]; [| discriminate].
  simpl. destruct (String.eqb sr "SINGLE"); [| destruct (String.eqb sr "REPEATING")];
    [| | intros H; injection H as <-; exists ""%string; symmetry; apply str_app_nil_r];
    (destruct (ji_question_id item) as [qid |]; [| discriminate]);
    (destruct (ji_data_source item) as [ds |]; [| discriminate]);
    (destruct (ji_name item) as [nm |]; [| discriminate]);
    simpl; intros H; injection H as <-; eexists; rewrite str_app_assoc; reflexivity.
Qed.

(** The two LEFT JOINs of a REPEATING item start with its answer-header
    join, which correlates through [initial_join_answers]. *)
Lemma join_clauses_repeating (index : nat) (item : JoinItem) (qid : Z) (q q' : string) :
  ji_single_or_repeat item = Some "REPEATING" -> ji_question_id item = Some qid ->
  join_clauses (bridge index) item q = Ok q' ->
  exists post, q' = (q ++ repeating_header_join index qid ++ post)%string.
Proof.
  intros Hsr Hq. unfold join_clauses. rewrite Hsr, Hq. simpl.
  destruct (ji_data_source item) as [ds |]; [| discriminate].
  destruct (ji_name item) as [nm |]; [| discriminate].
  simpl. intros H. injection H as <-. eexists.
  rewrite str_app_assoc. reflexivity.
Qed.

Lemma data_conn_bridge (k : nat) : data_conn_of k (Nat.max 1 k) = (bridge k, Nat.max 1 (S k)).
Proof. destruct k; reflexivity. Qed.

Lemma joins_loop_extends (l : list (nat * JoinItem)) (q : string) (jc : nat) r :
  fold_left add_join_step l (Ok (q, jc)) = Ok r -> exists t, fst r = (q ++ t)%string.
Proof.
  apply (fold_inv (fun st => exists t, fst st = (q ++ t)%string)).
  - intros e [i it]. reflexivity.
  - intros [q0 jc0] [index item] [q1 jc1] _ [t Ht] Hstep. simpl in Hstep, Ht.
    destruct (data_conn_of index jc0) as [dc jc'].
    destruct (join_clauses dc item q0) as [q2 |] eqn:Ej; simpl in Hstep; [| discriminate].
    injection Hstep as <- <-. destruct (join_clauses_extends _ _ _ _ Ej) as [t' ->].
    exists (t ++ t')%string. simpl. rewrite Ht, str_app_assoc. reflexivity.
  - exists ""%string. symmetry. apply str_app_nil_r.
Qed.

Lemma joins_loop_clause (l : list JoinItem) : forall k q r,
  fold_left add_join_step (enumerate_from k l) (Ok (q, Nat.max 1 k)) = Ok r ->
  forall i item qid, nth_error l i = Some item ->
  ji_single_or_repeat item = Some "REPEATING" -> ji_question_id item = Some qid ->
  exists pre post, fst r = (pre ++ repeating_header_join (k + i) qid ++ post)%string.
Proof.
  induction l as [| x l IH]; intros k q r H i item qid Hi Hsr Hq.
  - destruct i; discriminate.
  - simpl in H. rewrite data_conn_bridge in H.
    destruct (join_clauses (bridge k) x q) as [q1 | e] eqn:Ej; simpl in H;
      [| rewrite fold_raise in H by (intros ? [? ?]; reflexivity); discriminate].
    destruct i as [| i].
    + simpl in Hi. injection Hi as <-.
      destruct (join_clauses_repeating k x qid q q1 Hsr Hq Ej) as [post ->].
      destruct (joins_loop_extends _ _ _ _ H) as [t Ht].
      exists q, (post ++ t)%string. rewrite Ht, Nat.add_0_r, !str_app_assoc. reflexivity.
    + simpl in Hi. rewrite Nat.add_succ_r.
      exact (IH (S k) q1 r H i item qid Hi Hsr Hq).
Qed.

(** C4: in every compiled query (from a package whose texts have no
    backslash, so that the final [unicode_escape] decoding keeps them), the
    answer-header join of a REPEATING item at any position [i] correlates
    through the first item's bridge [initial_join_answers], never through
    the bridge of its predecessor. *)
Theorem repeating_join_uses_initial_bridge :
  forall (src : Source) (jl : list JoinItem) (sql : string) (i : nat)
         (item : JoinItem) (qid : Z),
  package_plain src jl = true ->
  build_query (Some src) (Some jl) None = Ok (Some sql) ->
  nth_error jl i = Some item ->
  ji_single_or_repeat item = Some "REPEATING" ->
  ji_question_id item = Some qid ->
  exists pre post, sql = (pre ++ repeating_header_join i qid ++ post)%string.
Proof.
  intros src jl sql i item qid Hp H Hi Hsr Hq.
  unfold package_plain in Hp. apply andb_prop in Hp as [Hs Hj].
  assert (Hsrc := Hs). unfold source_plain in Hsrc.
  apply andb_prop in Hsrc as [Hsrc _]. apply andb_prop in Hsrc as [Hsrc Hf].
  apply andb_prop in Hsrc as [_ Hn].
  unfold build_query, compile_query in H.
  destruct (add_source_fields src ("SELECT" ++ nl)) as [q1 |] eqn:E1; [| discriminate].
  simpl in H. destruct (add_join_fields jl q1) as [q2 |] eqn:E2; [| discriminate].
  simpl in H. destruct (add_from src q2) as [q3 |] eqn:E3; [| discriminate].
  simpl in H. destruct (add_joins jl q3) as [q4 |] eqn:E4; [| discriminate].
  simpl in H. destruct (add_filter src q4) as [q5 |] eqn:E5; [| discriminate].
  simpl in H. destruct (add_order src q5) as [q6 |] eqn:E6; [| discriminate].
  simpl in H.
  assert (P1 : plain q1 = true) by (apply (add_source_fields_plain src ("SELECT" ++ nl) q1 Hn Hf); [reflexivity | exact E1]).
  assert (P2 : plain q2 = true) by exact (add_join_fields_plain jl q1 q2 Hj P1 E2).
  assert (P3 : plain q3 = true) by exact (add_from_plain src q2 q3 Hs P2 E3).
  assert (P4 : plain q4 = true) by exact (add_joins_plain jl q3 q4 Hj P3 E4).
  assert (P5 : plain q5 = true) by exact (add_filter_plain src q4 q5 Hs P4 E5).
  assert (P6 : plain q6 = true) by exact (add_order_plain src q5 q6 Hs P5 E6).
  rewrite (decode_plain q6 P6) in H. simpl in H. injection H as <-.
  destruct (add_order_extends _ _ _ E6) as [t6 ->].
  destruct (add_filter_extends _ _ _ E5) as [t5 ->].
  unfold add_joins in E4.
  destruct (fold_left add_join_step (enumerate jl) (Ok (q3, 1%nat))) as [r |] eqn:Er;
    [| discriminate].
  simpl in E4. injection E4 as <-.
  destruct (joins_loop_clause jl 0 q3 r Er i item qid Hi Hsr Hq) as [pre [post Hr]].
  exists pre, (post ++ t5 ++ t6)%string.
  rewrite Hr, Nat.add_0_l, !str_app_assoc. reflexivity.
Qed.

Lemma repeating_join_uses_initial_bridge_witness :
  match build_query (Some (app_source "app")) (Some ex_joins) None with
  | Ok (Some sql) => exists pre post,
      sql = (pre ++ repeating_header_join 2 1021 ++ post)%string
  | _ => False
  end.
Proof.
  destruct (build_query (Some (app_source "app")) (Some ex_joins) None)
    as [[sql |] | e] eqn:E; [| vm_compute in E; discriminate | vm_compute in E; discriminate].
  apply (repeating_join_uses_initial_bridge (app_source "app") ex_joins sql 2
           (join_item "license_in" "REPEATING" "application_data_dateanswer" 1021
              [[("value", "license_in")]]) 1021).
  - vm_compute. reflexivity.
  - exact E.
  - reflexivity.
  - reflexivity.
  - reflexivity.
Defined.

(** ** Archive rotation *)

Lemma insert_by_date_In (x y : string * Z) (l : list (string * Z)) :
  In y (insert_by_date x l) <-> x = y \/ In y l.
Proof.
  induction l as [| z r IH]; simpl.
  - split; intros [H | H]; auto; destruct H.
  - destruct (Z.leb (snd x) (snd z)); simpl; [tauto |]. rewrite IH. tauto.
Qed.

Lemma sort_by_date_In (y : string * Z) (l : list (string * Z)) :
  In y (sort_by_date l) <-> In y l.
Proof.
  induction l as [| x r IH]; simpl; [tauto |].
  rewrite insert_by_date_In, IH. split; intros [H | H]; auto.
Qed.

Lemma sort_by_date_length (l : list (string * Z)) : length (sort_by_date l) = length l.
Proof.
  induction l as [| x r IH]; [reflexivity |]. simpl. rewrite <- IH.
  clear IH. induction (sort_by_date r) as [| y r' IH']; [reflexivity |].
  simpl. destruct (Z.leb (snd x) (snd y)); simpl; [reflexivity | rewrite IH'; reflexivity].
Qed.

Definition head_min (l : list (string * Z)) : Prop :=
  match l with
  | [] => True
  | h :: _ => forall y, In y l -> (snd h <= snd y)%Z
  end.

Lemma insert_by_date_head_min (x : string * Z) (l : list (string * Z)) :
  head_min l -> head_min (insert_by_date x l).
Proof.
  destruct l as [| z r]; simpl.
  - intros _ y [<- | []]. lia.
  - intros Hz. destruct (Z.leb (snd x) (snd z)) eqn:E; simpl.
    + apply Z.leb_le in E. intros y [<- | [<- | Hy]]; [lia | lia |].
      specialize (Hz y (or_intror Hy)). lia.
    + apply Z.leb_gt in E. intros y [<- | Hy]; [lia |].
      apply insert_by_date_In in Hy as [<- | Hy]; [lia |]. apply Hz. right. exact Hy.
Qed.

(** The sub-folder chosen by [folder_dates[0]] after the sort has the
    smallest date. *)
Lemma sort_by_date_min (l : list (string * Z)) (h : string * Z) (r : list (string * Z)) :
  sort_by_date l = h :: r -> In h l /\ forall y, In y l -> (snd h <= snd y)%Z.
Proof.
  intros E. assert (Hm : head_min (sort_by_date l)).
  { clear E. induction l as [| x l' IH]; simpl; [exact I |].
    apply insert_by_date_head_min. exact IH. }
  rewrite E in Hm.
  change (forall y, In y (h :: r) -> (snd h <= snd y)%Z) in Hm. split.
  - apply sort_by_date_In. rewrite E. left. reflexivity.
  - intros y Hy. apply Hm. rewrite <- E. apply sort_by_date_In. exact Hy.
Qed.

Section RotationProofs.

Variable Store : Type.
Variable list_subfolders : Store -> list string.
Variable list_contents : Store -> string -> list Z.
Variable delete_object : Store -> string -> option Store.
Variable limit : Z.

Lemma folder_dates_ok (s : Store) (subs : list string) :
  (forall k, In k subs -> list_contents s k <> []) ->
  exists fd, folder_dates Store list_contents s subs = inr fd /\ length fd = length subs.
Proof.
  induction subs as [| k r IH]; intros Hne; simpl; [exists []; split; reflexivity |].
  destruct (list_contents s k) as [| t ts] eqn:Ek;
    [exfalso; apply (Hne k); [left; reflexivity | exact Ek] |].
  destruct IH as [fd [-> Hl]]; [intros k' Hk'; apply Hne; right; exact Hk' |].
  exists ((k, oldest t ts) :: fd). simpl. rewrite Hl. split; reflexivity.
Qed.

Lemma folder_dates_err (s : Store) (subs : list string) (e : rot_exn) :
  folder_dates Store list_contents s subs = inl e -> exists k, e = CorruptArchive k.
Proof.
  induction subs as [| k r IH]; simpl; [discriminate |].
  destruct (list_contents s k) as [| t ts].
  - intros H. injection H as <-. exists k. reflexivity.
  - destruct (folder_dates Store list_contents s r) as [e' | l]; [| discriminate].
    intros H. injection H as <-. apply IH. reflexivity.
Qed.

(** The loop, from iteration [c] on, over a store that keeps the invariant
    [I] and never gets down to the limit. *)
Lemma rotate_loop_stuck (I : Store -> Prop) :
  (0 <= limit)%Z ->
  (forall s, I s -> (limit < Z.of_nat (length (list_subfolders s)))%Z) ->
  (forall s k s', I s -> delete_object s k = Some s' -> I s') ->
  forall fuel c s dels,
  (0 <= c <= max_iterations)%Z -> (Z.of_nat fuel + c = max_iterations + 1)%Z -> I s ->
  let o := rotate_loop Store list_subfolders list_contents delete_object limit
             fuel c (list_subfolders s) s dels in
  raised _ o <> None /\
  exists d, deleted _ o = (dels ++ d)%list
    /\ (Z.of_nat (length d) <= max_iterations - c)%Z
    /\ (raised _ o = Some RotationStuck -> Z.of_nat (length d) = max_iterations - c)
    /\ ((forall s k, I s -> In k (list_subfolders s) -> list_contents s k <> []) ->
        (forall s k, I s -> delete_object s k <> None) ->
        raised _ o = Some RotationStuck).
Proof.
  intros Hlim Hcount Hinv. unfold max_iterations.
  induction fuel as [| fuel IH]; intros c s dels Hc Hf Hs; cbn [rotate_loop].
  { exfalso. lia. }
  pose proof (Hcount s Hs) as Hgt.
  replace (Z.gtb (Z.of_nat (length (list_subfolders s))) limit) with true
    by (symmetry; apply Z.gtb_lt; lia).
  unfold max_iterations.
  destruct (Z.gtb (c + 1) 150) eqn:Estuck.
  { apply Z.gtb_lt in Estuck. cbn [raised deleted]. split; [discriminate |].
    exists []. rewrite app_nil_r. cbn [length Z.of_nat]. repeat split; try lia; auto. }
  rewrite Z.gtb_ltb, Z.ltb_ge in Estuck.
  destruct (folder_dates Store list_contents s (list_subfolders s)) as [e | fd] eqn:Efd.
  { cbn [raised deleted]. split; [discriminate |]. exists []. rewrite app_nil_r.
    cbn [length Z.of_nat]. split; [reflexivity |]. split; [lia |]. split.
    - intros H. destruct (folder_dates_err s _ e Efd) as [k ->]. discriminate.
    - intros Hne _. destruct (folder_dates_ok s (list_subfolders s) (fun k => Hne s k Hs)) as [fd [E _]].
      congruence. }
  destruct (sort_by_date fd) as [| [k t] r] eqn:Esort.
  { cbn [raised deleted]. split; [discriminate |]. exists []. rewrite app_nil_r.
    cbn [length Z.of_nat]. split; [reflexivity |]. split; [lia |]. split; [discriminate |].
    intros Hne _. destruct (folder_dates_ok s (list_subfolders s) (fun k => Hne s k Hs)) as [fd' [E Hl]].
    rewrite Efd in E. injection E as <-.
    pose proof (sort_by_date_length fd) as L. rewrite Esort in L. simpl in L. lia. }
  destruct (delete_object s k) as [s' |] eqn:Edel.
  2: { cbn [raised deleted]. split; [discriminate |]. exists []. rewrite app_nil_r.
       cbn [length Z.of_nat]. split; [reflexivity |]. split; [lia |]. split; [discriminate |].
       intros _ Hok. exfalso. exact (Hok s k Hs Edel). }
  pose proof (Hinv s k s' Hs Edel) as Hs'.
  pose proof (Hcount s' Hs') as Hgt'.
  destruct (list_subfolders s') as [| x l] eqn:Es'; [simpl in Hgt'; lia |].
  rewrite <- Es'.
  destruct (IH (c + 1)%Z s' (dels ++ [k])%list) as [Hr [d [Hd [Hle [Hst Hstrong]]]]];
    [lia | lia | exact Hs' |].
  split; [exact Hr |]. exists (k :: d). rewrite Hd, <- app_assoc. cbn [length app]. rewrite Nat2Z.inj_succ.
  repeat split; [lia | intros H; specialize (Hst H); lia | exact Hstrong].
Qed.

End RotationProofs.

(** Claim C8: the rotation is bounded by [max_iterations]. Take any object
    store and any invariant [I] of its states under which the sub-folder
    count stays above the limit, for example a store whose listing never
    reflects a deletion. Then the rotation never returns normally and never
    deletes more than [max_iterations] sub-folders. When it raises
    [RotationStuck], it has made exactly [max_iterations] deletions. When
    every listed sub-folder has objects and every deletion succeeds, it
    raises [RotationStuck]. *)
Theorem rotation_stops_at_bound (Store : Type) (ls : Store -> list string)
    (lc : Store -> string -> list Z) (del : Store -> string -> option Store)
    (limit : Z) (I : Store -> Prop) (s0 : Store) :
  (0 <= limit)%Z ->
  (forall s, I s -> (limit < Z.of_nat (length (ls s)))%Z) ->
  (forall s k s', I s -> del s k = Some s' -> I s') ->
  I s0 ->
  let o := monitor_and_maintain_archive_limit Store ls lc del limit s0 in
  raised _ o <> None
  /\ (Z.of_nat (length (deleted _ o)) <= max_iterations)%Z
  /\ (raised _ o = Some RotationStuck -> Z.of_nat (length (deleted _ o)) = max_iterations)
  /\ ((forall s k, I s -> In k (ls s) -> lc s k <> []) ->
      (forall s k, I s -> del s k <> None) ->
      raised _ o = Some RotationStuck).
Proof.
  intros Hlim Hcount Hinv Hs0 o. subst o.
  unfold monitor_and_maintain_archive_limit.
  pose proof (Hcount s0 Hs0) as Hgt.
  destruct (ls s0) as [| x l] eqn:E; [simpl in Hgt; lia |]. rewrite <- E.
  destruct (rotate_loop_stuck Store ls lc del limit I Hlim Hcount Hinv
              (S (Z.to_nat max_iterations)) 0%Z s0 [])
    as [Hr [d [Hd [Hle [Hst Hstrong]]]]];
    [unfold max_iterations; lia | reflexivity | exact Hs0 |].
  rewrite Hd. cbn [app]. unfold max_iterations in *. rewrite Z.sub_0_r in *.
  repeat split; assumption.
Qed.

Lemma rotation_stops_at_bound_witness :
  raised _ (rotate_stale 1 (numbered_folders 3)) = Some RotationStuck
  /\ length (deleted _ (rotate_stale 1 (numbered_folders 3))) = 150%nat.
Proof.
  pose proof (rotation_stops_at_bound folder_store fs_subfolders fs_contents stale_delete 1
                (fun s => s = numbered_folders 3) (numbered_folders 3)) as H.
  unfold rotate_stale. destruct H as [Hr [Hle [Hst Hstrong]]].
  - lia.
  - intros s ->. vm_compute. reflexivity.
  - intros s k s' -> Hd. injection Hd as <-. reflexivity.
  - reflexivity.
  - assert (Hstuck : raised _ (rotate_stale 1 (numbered_folders 3)) = Some RotationStuck).
    { apply Hstrong.
      - intros s k -> Hk. vm_compute in Hk.
        destruct Hk as [<- | [<- | [<- | []]]]; vm_compute; discriminate.
      - intros s k -> . discriminate. }
    split; [exact Hstuck |].
    apply Hst in Hstuck. unfold max_iterations in Hstuck. lia.
Defined.

(** A faithful store with 152 sub-folders, limit 1 (so k = 151): the call
    raises [RotationStuck] after 150 deletions instead of making 151. *)
Lemma rotation_k151_counterexample :
  length (numbered_folders 152) = (1 + 151)%nat
  /\ forallb (fun p => negb (match snd p with [] => true | _ => false end))
             (numbered_folders 152) = true
  /\ raised _ (rotate_faithful 1 (numbered_folders 152)) = Some RotationStuck
  /\ length (deleted _ (rotate_faithful 1 (numbered_folders 152))) = 150%nat.
Proof. vm_compute. repeat split. Qed.

(** ** Rotation on a store that reflects every deletion *)

Lemma fs_contents_nodup (s : folder_store) (k : string) (ts : list Z) :
  NoDup (map fst s) -> In (k, ts) s -> fs_contents s k = ts.
Proof.
  unfold fs_contents. induction s as [| [k0 ts0] r IH]; intros Hnd Hin; [destruct Hin |].
  simpl in Hnd. inversion Hnd as [| ? ? Hk0 Hnd']; subst. simpl.
  destruct Hin as [E | Hin].
  - injection E as <- <-. rewrite String.eqb_refl. reflexivity.
  - destruct (String.eqb k0 k) eqn:E.
    + apply String.eqb_eq in E. subst k0. exfalso. apply Hk0.
      apply in_map_iff. exists (k, ts). split; [reflexivity | exact Hin].
    + apply IH; assumption.
Qed.

Lemma folder_dates_faithful (s sub : folder_store) :
  NoDup (map fst s) -> incl sub s -> (forall k ts, In (k, ts) sub -> ts <> []) ->
  folder_dates folder_store fs_contents s (map fst sub)
  = inr (map (fun p => (fst p, oldest_of (snd p))) sub).
Proof.
  intros Hnd. induction sub as [| [k ts] r IH]; intros Hincl Hne; [reflexivity |].
  simpl. rewrite (fs_contents_nodup s k ts Hnd (Hincl _ (or_introl eq_refl))).
  destruct ts as [| t ts]; [exfalso; exact (Hne k [] (or_introl eq_refl) eq_refl) |].
  rewrite IH; [reflexivity | |].
  - intros p Hp. apply Hincl. right. exact Hp.
  - intros k' ts' Hin. apply (Hne k'). right. exact Hin.
Qed.

Lemma filter_keep_all (g : string * list Z -> bool) (l : folder_store) :
  (forall p, In p l -> g p = true) -> filter g l = l.
Proof.
  induction l as [| p r IH]; intros H; [reflexivity |]. simpl.
  rewrite (H p (or_introl eq_refl)), IH; [reflexivity |].
  intros q Hq. apply H. right. exact Hq.
Qed.

Lemma remove_folder_length (s : folder_store) (k : string) :
  NoDup (map fst s) -> In k (map fst s) -> S (length (remove_folder s k)) = length s.
Proof.
  unfold remove_folder. induction s as [| [k0 ts0] r IH]; intros Hnd Hin; [destruct Hin |].
  simpl in Hnd. inversion Hnd as [| ? ? Hk0 Hnd']; subst. simpl.
  destruct (String.eqb k0 k) eqn:E; simpl.
  - apply String.eqb_eq in E. subst k0. rewrite filter_keep_all; [reflexivity |].
    intros [k1 ts1] Hp. simpl. apply negb_true_iff. apply String.eqb_neq.
    intros ->. apply Hk0. apply in_map_iff. exists (k, ts1). split; [reflexivity | exact Hp].
  - rewrite IH; [reflexivity | exact Hnd' |].
    simpl in Hin. destruct Hin as [-> | Hin]; [rewrite String.eqb_refl in E; discriminate | exact Hin].
Qed.

Lemma remove_folder_nodup (s : folder_store) (k : string) :
  NoDup (map fst s) -> NoDup (map fst (remove_folder s k)).
Proof.
  unfold remove_folder. induction s as [| [k0 ts0] r IH]; intros Hnd; [constructor |].
  simpl in Hnd. inversion Hnd as [| ? ? Hk0 Hnd']; subst. simpl.
  destruct (negb (String.eqb k0 k)); simpl; [| apply IH; exact Hnd'].
  constructor; [| apply IH; exact Hnd'].
  intros Hin. apply Hk0. apply in_map_iff in Hin as [p [Hp Hin]].
  apply filter_In in Hin as [Hin _]. apply in_map_iff. exists p. split; assumption.
Qed.

(** The rotation loop, from iteration [c] on, over a faithful store holding
    [limit + k] sub-folders. *)
Lemma rotate_loop_faithful (limit : Z) :
  (1 <= limit)%Z ->
  forall k fuel c s dels,
  NoDup (map fst s) -> (forall key ts, In (key, ts) s -> ts <> []) ->
  Z.of_nat (length s) = (limit + Z.of_nat k)%Z ->
  (0 <= c)%Z -> (c + Z.of_nat k <= max_iterations)%Z ->
  (Z.of_nat fuel + c = max_iterations + 1)%Z ->
  let o := rotate_loop folder_store fs_subfolders fs_contents fs_delete limit
             fuel c (fs_subfolders s) s dels in
  raised _ o = None
  /\ exists d, deleted _ o = (dels ++ d)%list /\ length d = k /\ oldest_first s d.
Proof.
  intros Hlim. unfold max_iterations.
  induction k as [| k IH]; intros fuel c s dels Hnd Hne Hlen Hc Hck Hf;
    (destruct fuel as [| fuel]; [lia |]); cbn [rotate_loop].
  - replace (Z.gtb (Z.of_nat (length (fs_subfolders s))) limit) with false
      by (symmetry; rewrite Z.gtb_ltb; apply Z.ltb_ge; unfold fs_subfolders;
          rewrite length_map; lia).
    cbn [raised deleted]. split; [reflexivity |]. exists [].
    split; [symmetry; apply app_nil_r | split; [reflexivity | exact I]].
  - replace (Z.gtb (Z.of_nat (length (fs_subfolders s))) limit) with true
      by (symmetry; apply Z.gtb_lt; unfold fs_subfolders; rewrite length_map; lia).
    unfold max_iterations.
    destruct (Z.gtb (c + 1) 150) eqn:Estuck; [apply Z.gtb_lt in Estuck; lia |].
    change (fs_subfolders s) with (map fst s).
    rewrite (folder_dates_faithful s s Hnd (incl_refl s) Hne).
    destruct (sort_by_date (map (fun p => (fst p, oldest_of (snd p))) s))
      as [| [key t] r] eqn:Esort.
    { pose proof (sort_by_date_length (map (fun p => (fst p, oldest_of (snd p))) s)) as L.
      rewrite Esort, length_map in L. simpl in L. lia. }
    destruct (sort_by_date_min _ _ _ Esort) as [Hin Hmin].
    apply in_map_iff in Hin as [[key' ts] [Ep Hin]]. simpl in Ep.
    injection Ep as -> Et. subst t.
    change (fs_delete s key) with (Some (remove_folder s key)).
    cbv beta iota zeta.
    assert (Hnd' : NoDup (map fst (remove_folder s key))) by (apply remove_folder_nodup; exact Hnd).
    assert (Hne' : forall key0 ts0, In (key0, ts0) (remove_folder s key) -> ts0 <> []).
    { intros key0 ts0 Hp. apply filter_In in Hp as [Hp _]. exact (Hne key0 ts0 Hp). }
    assert (Hlen' : Z.of_nat (length (remove_folder s key)) = (limit + Z.of_nat k)%Z).
    { pose proof (remove_folder_length s key Hnd) as L.
      rewrite <- L in Hlen; [lia |]. apply in_map_iff. exists (key, ts). split; [reflexivity | exact Hin]. }
    destruct (fs_subfolders (remove_folder s key)) as [| x l] eqn:Es'.
    { unfold fs_subfolders in Es'. apply (f_equal (@length string)) in Es'.
      rewrite length_map in Es'. simpl in Es'. lia. }
    rewrite <- Es'.
    destruct (IH fuel (c + 1)%Z (remove_folder s key) (dels ++ [key])%list Hnd' Hne' Hlen')
      as [Hr [d [Hd [Hl Hof]]]]; [lia | lia | lia |].
    split; [exact Hr |]. exists (key :: d).
    rewrite Hd, <- app_assoc. split; [reflexivity |]. split; [simpl; rewrite Hl; reflexivity |].
    split; [| exact Hof].
    exists ts. split; [exact Hin |]. intros k' ts' Hin'.
    apply (Hmin (k', oldest_of ts')). apply in_map_iff. exists (k', ts'). split; [reflexivity | exact Hin'].
Qed.

(** The rotation loop, from iteration [c] on, over a faithful store that
    holds more than [limit + m] sub-folders, where [m] is the number of
    iterations left before [max_iterations]. *)
Lemma rotate_loop_faithful_stuck (limit : Z) :
  (0 <= limit)%Z ->
  forall m fuel c s dels,
  NoDup (map fst s) -> (forall key ts, In (key, ts) s -> ts <> []) ->
  (limit + Z.of_nat m < Z.of_nat (length s))%Z ->
  (0 <= c)%Z -> (c + Z.of_nat m = max_iterations)%Z ->
  (Z.of_nat fuel + c = max_iterations + 1)%Z ->
  let o := rotate_loop folder_store fs_subfolders fs_contents fs_delete limit
             fuel c (fs_subfolders s) s dels in
  raised _ o = Some RotationStuck
  /\ exists d, deleted _ o = (dels ++ d)%list /\ length d = m.
Proof.
  intros Hlim. unfold max_iterations.
  induction m as [| m IH]; intros fuel c s dels Hnd Hne Hlen Hc Hcm Hf;
    (destruct fuel as [| fuel]; [lia |]); cbn [rotate_loop];
    (replace (Z.gtb (Z.of_nat (length (fs_subfolders s))) limit) with true
       by (symmetry; apply Z.gtb_lt; unfold fs_subfolders; rewrite length_map; lia));
    unfold max_iterations.
  - replace (Z.gtb (c + 1) 150) with true by (symmetry; apply Z.gtb_lt; lia).
    cbn [raised deleted]. split; [reflexivity |].
    exists []. split; [symmetry; apply app_nil_r | reflexivity].
  - replace (Z.gtb (c + 1) 150) with false
      by (symmetry; rewrite Z.gtb_ltb; apply Z.ltb_ge; lia).
    change (fs_subfolders s) with (map fst s).
    rewrite (folder_dates_faithful s s Hnd (incl_refl s) Hne).
    destruct (sort_by_date (map (fun p => (fst p, oldest_of (snd p))) s))
      as [| [key t] r] eqn:Esort.
    { pose proof (sort_by_date_length (map (fun p => (fst p, oldest_of (snd p))) s)) as L.
      rewrite Esort, length_map in L. simpl in L. lia. }
    destruct (sort_by_date_min _ _ _ Esort) as [Hin _].
    apply in_map_iff in Hin as [[key' ts] [Ep Hin]]. simpl in Ep.
    injection Ep as -> Et. subst t.
    change (fs_delete s key) with (Some (remove_folder s key)).
    cbv beta iota zeta.
    assert (Hnd' : NoDup (map fst (remove_folder s key))) by (apply remove_folder_nodup; exact Hnd).
    assert (Hne' : forall key0 ts0, In (key0, ts0) (remove_folder s key) -> ts0 <> []).
    { intros key0 ts0 Hp. apply filter_In in Hp as [Hp _]. exact (Hne key0 ts0 Hp). }
    assert (Hlen' : (limit + Z.of_nat m < Z.of_nat (length (remove_folder s key)))%Z).
    { pose proof (remove_folder_length s key Hnd) as L.
      rewrite <- L in Hlen; [lia |]. apply in_map_iff. exists (key, ts). split; [reflexivity | exact Hin]. }
    destruct (fs_subfolders (remove_folder s key)) as [| x l] eqn:Es'.
    { unfold fs_subfolders in Es'. apply (f_equal (@length string)) in Es'.
      rewrite length_map in Es'. simpl in Es'. lia. }
    rewrite <- Es'.
    destruct (IH fuel (c + 1)%Z (remove_folder s key) (dels ++ [key])%list Hnd' Hne' Hlen')
      as [Hr [d [Hd Hl]]]; [lia | lia | lia |].
    split; [exact Hr |]. exists (key :: d).
    rewrite Hd, <- app_assoc. split; [reflexivity | simpl; rewrite Hl; reflexivity].
Qed.

Lemma nodupb_NoDup (l : list string) : nodupb l = true -> NoDup l.
Proof.
  induction l as [| x r IH]; intros H; [constructor |].
  cbn [nodupb] in H. apply andb_prop in H as [Hx Hr].
  constructor; [| exact (IH Hr)].
  intros Hin. apply negb_true_iff in Hx.
  assert (existsb (String.eqb x) r = true) as Hc.
  { apply existsb_exists. exists x. split; [exact Hin | apply String.eqb_refl]. }
  congruence.
Qed.

(** Claim C7 (amended): take a store that reflects every deletion, with
    distinct sub-folder keys, every sub-folder holding at least one object,
    and [limit + k] sub-folders, where [1 <= limit] and [0 < k]. When
    [k <= 150], one rotation call returns normally after exactly [k]
    deletions, each removing a sub-folder whose oldest object is earliest
    among the sub-folders left at that step. When [k > 150], the call
    raises [RotationStuck] after exactly 150 deletions (see also
    [rotation_k151_counterexample]). *)
Theorem rotation_deletes_k_oldest (limit : Z) (k : nat) (s : folder_store) :
  (1 <= limit)%Z ->
  NoDup (map fst s) ->
  (forall key ts, In (key, ts) s -> ts <> []) ->
  Z.of_nat (length s) = (limit + Z.of_nat k)%Z ->
  (0 < k)%nat ->
  (Nat.le k 150 ->
   raised _ (rotate_faithful limit s) = None
   /\ length (deleted _ (rotate_faithful limit s)) = k
   /\ oldest_first s (deleted _ (rotate_faithful limit s)))
  /\ (Nat.lt 150 k ->
   raised _ (rotate_faithful limit s) = Some RotationStuck
   /\ length (deleted _ (rotate_faithful limit s)) = 150%nat).
Proof.
  intros Hlim Hnd Hne Hlen Hk.
  unfold rotate_faithful, monitor_and_maintain_archive_limit.
  destruct (fs_subfolders s) as [| x l] eqn:E.
  { unfold fs_subfolders in E. apply (f_equal (@length string)) in E.
    rewrite length_map in E. simpl in E. lia. }
  rewrite <- E. split.
  - intros Hk150.
    destruct (rotate_loop_faithful limit Hlim k (S (Z.to_nat max_iterations)) 0%Z s []
                Hnd Hne Hlen) as [Hr [d [Hd [Hl Hof]]]];
      [lia | unfold max_iterations; lia | reflexivity |].
    rewrite Hd. cbn [app]. split; [exact Hr |]. split; assumption.
  - intros Hk150.
    destruct (rotate_loop_faithful_stuck limit ltac:(lia) 150 (S (Z.to_nat max_iterations))
                0%Z s [] Hnd Hne) as [Hr [d [Hd Hl]]];
      [lia | lia | reflexivity | reflexivity |].
    rewrite Hd. cbn [app]. split; [exact Hr | exact Hl].
Qed.

Lemma rotation_deletes_k_oldest_witness :
  (raised _ (rotate_faithful 2 [("a/", [5; 3]); ("b/", [1]); ("c/", [4; 2])]%Z) = None
   /\ deleted _ (rotate_faithful 2 [("a/", [5; 3]); ("b/", [1]); ("c/", [4; 2])]%Z) = ["b/"]
   /\ oldest_first [("a/", [5; 3]); ("b/", [1]); ("c/", [4; 2])]%Z
        (deleted _ (rotate_faithful 2 [("a/", [5; 3]); ("b/", [1]); ("c/", [4; 2])]%Z)))
  /\ (raised _ (rotate_faithful 1 (numbered_folders 152)) = Some RotationStuck
   /\ length (deleted _ (rotate_faithful 1 (numbered_folders 152))) = 150%nat).
Proof.
  split.
  - destruct (rotation_deletes_k_oldest 2 1 [("a/", [5; 3]); ("b/", [1]); ("c/", [4; 2])]%Z)
      as [Hsmall _].
    + lia.
    + vm_compute. repeat constructor; simpl; intuition discriminate.
    + intros key ts Hin. simpl in Hin.
      destruct Hin as [E | [E | [E | []]]]; injection E as _ <-; discriminate.
    + reflexivity.
    + lia.
    + destruct (Hsmall ltac:(lia)) as [Hr [_ Hof]].
      split; [exact Hr |]. split; [vm_compute; reflexivity | exact Hof].
  - destruct (rotation_deletes_k_oldest 1 151 (numbered_folders 152)) as [_ Hbig].
    + lia.
    + apply nodupb_NoDup. vm_compute. reflexivity.
    + intros key ts Hin. unfold numbered_folders in Hin.
      apply in_map_iff in Hin as [i [E _]]. injection E as _ <-. discriminate.
    + vm_compute. reflexivity.
    + lia.
    + exact (Hbig ltac:(lia)).
Defined.

(** ** Duplicate removal and the state of an [RDS] object *)

Lemma cell_eqb_eq (a b : cell) : cell_eqb a b = true <-> a = b.
Proof.
  destruct a as [| x | x], b as [| y | y]; simpl; split; intros H;
    try discriminate; try reflexivity.
  - apply Z.eqb_eq in H. subst. reflexivity.
  - injection H as <-. apply Z.eqb_refl.
  - apply String.eqb_eq in H. subst. reflexivity.
  - injection H as <-. apply String.eqb_refl.
Qed.

Lemma row_eqb_eq (r1 r2 : row) : row_eqb r1 r2 = true <-> r1 = r2.
Proof.
  revert r2. induction r1 as [| a r1 IH]; intros [| b r2]; simpl; split; intros H;
    try discriminate; try reflexivity.
  - apply andb_prop in H as [Ha Hr]. apply cell_eqb_eq in Ha. apply IH in Hr. subst. reflexivity.
  - injection H as <- <-. apply andb_true_intro. split; [apply cell_eqb_eq | apply IH]; reflexivity.
Qed.

Lemma row_in_In (r : row) (l : list row) : row_in r l = true <-> In r l.
Proof.
  unfold row_in. rewrite existsb_exists. split.
  - intros [y [Hy Hr]]. apply row_eqb_eq in Hr. subst. exact Hy.
  - intros H. exists r. split; [exact H | apply row_eqb_eq; reflexivity].
Qed.

(** Dropping the rows already [seen] or repeated keeps one copy of each
    other row. *)
Lemma dedup_rows (rs : list row) : forall seen,
  let out := select_rows rs (map negb (duplicated_aux seen rs)) in
  NoDup out /\ forall r, In r out <-> In r rs /\ ~ In r seen.
Proof.
  induction rs as [| r rest IH]; intros seen; simpl.
  - split; [constructor |]. intros x. split; [intros [] | intros [[] _]].
  - destruct (IH (seen ++ [r])%list) as [Hnd Hin].
    destruct (row_in r seen) eqn:E; simpl.
    + apply row_in_In in E. split; [exact Hnd |]. intros x. rewrite Hin, in_app_iff. simpl.
      split.
      * intros [Hx Hn]. split; [right; exact Hx | intros Hs; apply Hn; left; exact Hs].
      * intros [[<- | Hx] Hn]; [contradiction |].
        split; [exact Hx |]. intros [Hs | [<- | []]]; contradiction.
    + assert (Hr : ~ In r seen) by (intros H; apply row_in_In in H; congruence).
      split.
      * constructor; [| exact Hnd]. intros H. apply Hin in H as [_ H].
        apply H. apply in_app_iff. right. left. reflexivity.
      * intros x. simpl. rewrite Hin, in_app_iff. simpl. split.
        -- intros [<- | [Hx Hn]]; [split; [left; reflexivity | exact Hr] |].
           split; [right; exact Hx | intros Hs; apply Hn; left; exact Hs].
        -- intros [[<- | Hx] Hn]; [left; reflexivity |].
           destruct (row_eqb r x) eqn:Erx.
           ++ left. apply row_eqb_eq in Erx. exact Erx.
           ++ right. split; [exact Hx |]. intros [Hs | [Hxr | []]]; [contradiction |].
              subst x. rewrite (proj2 (row_eqb_eq r r) eq_refl) in Erx. discriminate.
Qed.

(** In a list without repeats, [duplicated] marks nothing. *)
Lemma select_duplicated_nodup (rs : list row) : forall seen,
  NoDup rs -> (forall r, In r rs -> ~ In r seen) ->
  select_rows rs (duplicated_aux seen rs) = [].
Proof.
  induction rs as [| r rest IH]; intros seen Hnd Hdis; [reflexivity |].
  inversion Hnd as [| ? ? Hr Hnd']; subst. simpl.
  destruct (row_in r seen) eqn:E.
  - apply row_in_In in E. exfalso. exact (Hdis r (or_introl eq_refl) E).
  - apply IH; [exact Hnd' |]. intros x Hx. rewrite in_app_iff. intros [Hs | [<- | []]].
    + exact (Hdis x (or_intror Hx) Hs).
    + exact (Hr Hx).
Qed.

Lemma check_schema_frame (st : RDS) (df : DataFrame) (b : bool) (st' : RDS) :
  check_schema st df = Ok (b, st') -> st' = set_fields_missing st (fields_missing st').
Proof.
  unfold check_schema. destruct (negb (df_empty df)); [| discriminate].
  intros H. injection H as H.
  assert (Hgen : forall schema c s0, s0 = set_fields_missing st (fields_missing s0) ->
            let r := fold_left (fun '(check, st) field =>
                if negb (existsb (String.eqb field) df.(columns)) then
                  (false, set_fields_missing st (st.(fields_missing) ++ [field])%list)
                else (check, st)) schema (c, s0) in
            snd r = set_fields_missing st (fields_missing (snd r))).
  { induction schema as [| f rest IH]; intros c s0 Hs0; simpl; [exact Hs0 |].
    destruct (negb (existsb (String.eqb f) (columns df))); apply IH; [| exact Hs0].
    rewrite Hs0 at 1. reflexivity. }
  specialize (Hgen (rds_schema st) true st). rewrite H in Hgen. apply Hgen.
  destruct st. reflexivity.
Qed.

Lemma query_to_df_ok_inv (st : RDS) (data df : DataFrame) (st' : RDS) :
  query_to_df st data = (Ok df, st') ->
  exists st1, check_schema st data = Ok (true, st1)
    /\ df = drop_duplicates data
    /\ st' = {| rds_query := st1.(rds_query); rds_schema := st1.(rds_schema);
                fields_missing := st1.(fields_missing);
                duplicates := select df (duplicated df);
                rds_df := df; archive := Some (select df (duplicated df), df) |}.
Proof.
  unfold query_to_df. destruct (rds_query st); [| discriminate].
  destruct (negb (df_empty data)); [| discriminate].
  destruct (check_schema st data) as [[[|] st1] | e] eqn:E; try discriminate.
  intros H. injection H as <- <-. exists st1. split; [reflexivity | split; reflexivity].
Qed.

(** After a successful [query_to_df], the table it returns (and stores in
    [self.df]) has the columns of the fetched table, no repeated row, and
    the same rows as the fetched table. *)
Theorem query_to_df_rows_deduplicated :
  forall (st : RDS) (data df : DataFrame) (st' : RDS),
  query_to_df st data = (Ok df, st') ->
  columns df = columns data
  /\ NoDup (rows df)
  /\ (forall r, In r (rows df) <-> In r (rows data)).
Proof.
  intros st data df st' H.
  destruct (query_to_df_ok_inv st data df st' H) as [st1 [_ [-> _]]].
  destruct (dedup_rows (rows data) []) as [Hnd Hin].
  split; [reflexivity | split; [exact Hnd |]].
  intros r. unfold drop_duplicates, select, duplicated. simpl. rewrite Hin.
  split; [intros [Hr _]; exact Hr | intros Hr; split; [exact Hr | intros []]].
Qed.

Lemma query_to_df_rows_deduplicated_witness :
  let data := {| columns := ["a"; "b"];
                 rows := [[CInt 1; CStr "x"]; [CInt 2; CNull]; [CInt 1; CStr "x"]] |} in
  match query_to_df (new_rds (Some "q") ["a"]) data with
  | (Ok df, st') => columns df = columns data /\ NoDup (rows df)
                    /\ (forall r, In r (rows df) <-> In r (rows data))
  | _ => False
  end.
Proof.
  intros data.
  destruct (query_to_df (new_rds (Some "q") ["a"]) data) as [[df | e] st'] eqn:E;
    [| vm_compute in E; discriminate].
  exact (query_to_df_rows_deduplicated (new_rds (Some "q") ["a"]) data df st' E).
Defined.

(** After a successful [query_to_df], [self.duplicates] has no row (it is
    taken from the already deduplicated table), the archive holds this empty
    table and the result, and [fields_missing] is as it was. *)
Theorem query_to_df_success_state :
  forall (st : RDS) (data df : DataFrame) (st' : RDS),
  query_to_df st data = (Ok df, st') ->
  rds_df st' = df
  /\ rows (duplicates st') = []
  /\ columns (duplicates st') = columns data
  /\ archive st' = Some (duplicates st', df)
  /\ fields_missing st' = fields_missing st
  /\ rds_query st' = rds_query st /\ rds_schema st' = rds_schema st.
Proof.
  intros st data df st' H.
  destruct (query_to_df_ok_inv st data df st' H) as [st1 [Hc [Hdf ->]]].
  pose proof (check_schema_frame st data true st1 Hc) as Hfr.
  assert (Hne : df_empty data = false).
  { unfold check_schema in Hc. destruct (df_empty data); [discriminate | reflexivity]. }
  destruct (check_schema_result st data Hne) as [st2 [Hc2 Hfm]].
  rewrite Hc in Hc2. injection Hc2 as Hall <-.
  simpl. split; [reflexivity |]. split.
  - subst df. unfold select, drop_duplicates, duplicated, select. simpl.
    destruct (dedup_rows (rows data) []) as [Hnd _].
    apply select_duplicated_nodup; [exact Hnd | intros r _ []].
  - split; [subst df; reflexivity |]. split; [reflexivity |].
    split; [| rewrite Hfr; split; reflexivity].
    rewrite Hfm. symmetry in Hall. rewrite filter_none; [apply app_nil_r |].
    intros x Hx. rewrite forallb_forall in Hall. rewrite (Hall x Hx). reflexivity.
Qed.

Lemma query_to_df_success_state_witness :
  let data := {| columns := ["a"]; rows := [[CInt 1]; [CInt 1]; [CInt 2]] |} in
  match query_to_df (new_rds (Some "q") ["a"]) data with
  | (Ok df, st') =>
      rds_df st' = df /\ rows (duplicates st') = [] /\ columns (duplicates st') = columns data
      /\ archive st' = Some (duplicates st', df)
      /\ fields_missing st' = fields_missing (new_rds (Some "q") ["a"])
      /\ rds_query st' = rds_query (new_rds (Some "q") ["a"])
      /\ rds_schema st' = rds_schema (new_rds (Some "q") ["a"])
  | _ => False
  end.
Proof.
  intros data.
  destruct (query_to_df (new_rds (Some "q") ["a"]) data) as [[df | e] st'] eqn:E;
    [| vm_compute in E; discriminate].
  exact (query_to_df_success_state (new_rds (Some "q") ["a"]) data df st' E).
Defined.

(** When the fetched table is non-empty but lacks a schema field,
    [query_to_df] raises the schema error; [fields_missing] gets the missing
    schema fields appended, in schema order, after what it held already (it
    is never reset), and the table, the duplicates and the archive are left
    as they were. *)
Theorem query_to_df_schema_mismatch :
  forall (st : RDS) (data : DataFrame) (q f : string),
  rds_query st = Some q ->
  df_empty data = false ->
  In f (rds_schema st) -> ~ In f (columns data) ->
  exists st', query_to_df st data = (Raise ExnSchemaMismatch, st')
    /\ fields_missing st' = (fields_missing st
         ++ filter (fun x => negb (existsb (String.eqb x) (columns data))) (rds_schema st))%list
    /\ rds_df st' = rds_df st /\ duplicates st' = duplicates st /\ archive st' = archive st
    /\ rds_query st' = rds_query st /\ rds_schema st' = rds_schema st.
Proof.
  intros st data q f Hq Hne Hf Hnf.
  destruct (check_schema_result st data Hne) as [st1 [Hc Hfm]].
  assert (Hfalse : forallb (fun x => existsb (String.eqb x) (columns data)) (rds_schema st) = false).
  { destruct (forallb _ _) eqn:E; [| reflexivity]. exfalso.
    rewrite forallb_forall in E. apply Hnf. apply existsb_eqb_In. exact (E f Hf). }
  rewrite Hfalse in Hc.
  pose proof (check_schema_frame st data false st1 Hc) as Hfr.
  exists st1. unfold query_to_df. rewrite Hq, Hne, Hc. simpl.
  split; [reflexivity |]. split; [exact Hfm |].
  rewrite Hfr. simpl. repeat split; try reflexivity. exact Hq.
Qed.

Lemma query_to_df_schema_mismatch_witness :
  exists st', query_to_df (new_rds (Some "q") ["a"; "b"; "c"])
                {| columns := ["b"]; rows := [[CInt 1]] |} = (Raise ExnSchemaMismatch, st')
    /\ fields_missing st' = (fields_missing (new_rds (Some "q") ["a"; "b"; "c"])
         ++ filter (fun x => negb (existsb (String.eqb x) ["b"])) ["a"; "b"; "c"])%list
    /\ rds_df st' = rds_df (new_rds (Some "q") ["a"; "b"; "c"])
    /\ duplicates st' = duplicates (new_rds (Some "q") ["a"; "b"; "c"])
    /\ archive st' = archive (new_rds (Some "q") ["a"; "b"; "c"])
    /\ rds_query st' = rds_query (new_rds (Some "q") ["a"; "b"; "c"])
    /\ rds_schema st' = rds_schema (new_rds (Some "q") ["a"; "b"; "c"]).
Proof.
  apply (query_to_df_schema_mismatch (new_rds (Some "q") ["a"; "b"; "c"])
           {| columns := ["b"]; rows := [[CInt 1]] |} "q" "a").
  - reflexivity.
  - reflexivity.
  - left. reflexivity.
  - simpl. intros [H | []]. discriminate.
Defined.

(** [query_to_df] in full: with no query it raises without running any SQL;
    when the pull fails, or the pulled table is empty, it raises too; in
    each case the object is left as it was. *)
Theorem query_to_df_pull_failures :
  forall (st : RDS) (cursor : string -> option DataFrame),
  (rds_query st = None -> query_to_df_pull st cursor = (Raise ExnEmptyDataFrame, st))
  /\ (forall q, rds_query st = Some q -> cursor q = None ->
        query_to_df_pull st cursor = (Raise ExnSqlPull, st))
  /\ (forall q data, rds_query st = Some q -> cursor q = Some data -> df_empty data = true ->
        query_to_df_pull st cursor = (Raise ExnEmptyDataFrame, st)).
Proof.
  intros st cursor. unfold query_to_df_pull, rds_sql_pull. split; [| split].
  - intros ->. reflexivity.
  - intros q -> ->. reflexivity.
  - intros q data Hq Hc He. rewrite Hq, Hc. simpl. unfold query_to_df.
    rewrite Hq, He. reflexivity.
Qed.

Lemma query_to_df_pull_failures_witness :
  query_to_df_pull (new_rds None ["a"]) (fun _ => None) = (Raise ExnEmptyDataFrame, new_rds None ["a"])
  /\ query_to_df_pull (new_rds (Some "q") ["a"]) (fun _ => None)
     = (Raise ExnSqlPull, new_rds (Some "q") ["a"])
  /\ query_to_df_pull (new_rds (Some "q") ["a"]) (fun _ => Some empty_frame)
     = (Raise ExnEmptyDataFrame, new_rds (Some "q") ["a"]).
Proof.
  split; [| split].
  - apply (query_to_df_pull_failures (new_rds None ["a"]) (fun _ => None)). reflexivity.
  - apply (query_to_df_pull_failures (new_rds (Some "q") ["a"]) (fun _ => None) ) with (q := "q");
      reflexivity.
  - apply (query_to_df_pull_failures (new_rds (Some "q") ["a"]) (fun _ => Some empty_frame))
      with (q := "q") (data := empty_frame); reflexivity.
Defined.

(** ** The text of a compiled query *)

Lemma fold_ok {A B : Type} (f : result A -> B -> result A) (l : list B) :
  (forall e b, f (Raise e) b = Raise e) ->
  (forall a b, In b l -> exists a', f (Ok a) b = Ok a') ->
  forall a, exists r, fold_left f l (Ok a) = Ok r.
Proof.
  intros Hr Hs. induction l as [| b l IH]; intros a; simpl; [exists a; reflexivity |].
  destruct (Hs a b (or_introl eq_refl)) as [a' ->].
  apply IH. intros a0 b0 Hb0. apply Hs. right. exact Hb0.
Qed.

Lemma source_lines_app (nm : string) (l1 l2 : list (string * string)) :
  source_lines nm (l1 ++ l2) = (source_lines nm l1 ++ source_lines nm l2)%string.
Proof.
  induction l1 as [| [tn jn] r IH]; [reflexivity |].
  cbn [source_lines List.app]. rewrite IH, !str_app_assoc. reflexivity.
Qed.

Lemma add_source_fields_text (src : Source) (nm : string) (fs : list dict) (q : string) :
  src_name src = Some nm -> src_fields src = Some fs ->
  add_source_fields src q = Ok (q ++ source_lines nm (concat fs))%string.
Proof.
  destruct src as [t n f p o]. cbn [src_name src_fields]. intros -> ->.
  unfold add_source_fields. cbn [src_name src_fields bind need].
  assert (Hin : forall (field : dict) q0,
    fold_left (fun acc '(tn, jn) =>
      let* q := acc in
      Ok (q ++ "    " ++ nm ++ "." ++ tn ++ " AS " ++ jn ++ "," ++ nl)) field (Ok q0)
    = Ok (q0 ++ source_lines nm field)%string).
  { induction field as [| [tn jn] r IH]; intros q0; cbn [fold_left bind].
    - rewrite str_app_nil_r. reflexivity.
    - rewrite IH. cbn [source_lines]. rewrite !str_app_assoc. reflexivity. }
  revert q. induction fs as [| field r IH]; intros q; cbn [fold_left concat].
  - rewrite str_app_nil_r. reflexivity.
  - rewrite Hin, IH, source_lines_app, str_app_assoc. reflexivity.
Qed.

Lemma add_join_fields_extends (jl : list JoinItem) (q q' : string) :
  add_join_fields jl q = Ok q' -> exists t, q' = (q ++ t)%string.
Proof.
  unfold add_join_fields.
  apply (fold_inv (fun a => exists t, a = (q ++ t)%string)).
  - intros e [i it]. reflexivity.
  - intros a [index item] a' _ [t Ht] Hstep. simpl in Hstep.
    destruct (ji_fields item) as [fs |]; simpl in Hstep; [| discriminate].
    revert Hstep. apply (fold_inv (fun a0 => exists t, a0 = (q ++ t)%string)).
    + intros e field. apply fold_raise. intros e' [tn jn]. reflexivity.
    + intros a0 field a1 _ [t0 Ht0]. apply (fold_inv (fun a2 => exists t, a2 = (q ++ t)%string)).
      * intros e [tn jn]. reflexivity.
      * intros a2 [tn jn] a3 _ [t2 Ht2] Hs. simpl in Hs.
        destruct (ji_name item) as [nm |]; simpl in Hs; [| discriminate].
        destruct (_ && _); injection Hs as <-; subst a2; eexists; rewrite str_app_assoc; reflexivity.
      * exists t0. exact Ht0.
    + exists t. exact Ht.
  - exists ""%string. symmetry. apply str_app_nil_r.
Qed.

Lemma add_from_text (src : Source) (tbl nm q : string) :
  src_table src = Some tbl -> src_name src = Some nm ->
  add_from src q = Ok (q ++ nl ++ "FROM" ++ nl ++ "    " ++ tbl ++ " " ++ nm ++ nl)%string.
Proof. intros Ht Hn. unfold add_from. rewrite Ht, Hn. simpl. rewrite !str_app_assoc. reflexivity. Qed.

Lemma add_joins_extends (jl : list JoinItem) (q q' : string) :
  add_joins jl q = Ok q' -> exists t, q' = (q ++ t)%string.
Proof.
  unfold add_joins.
  destruct (fold_left add_join_step (enumerate jl) (Ok (q, 1%nat))) as [r |] eqn:E;
    [| discriminate].
  simpl. intros H. injection H as <-. exact (joins_loop_extends _ _ _ _ E).
Qed.

Lemma filter_order_text (src : Source) (nm : string) (pj : Z) (od q : string) :
  src_name src = Some nm -> src_project src = Some pj -> src_order src = Some od ->
  (let* q := add_filter src q in add_order src q) = Ok (q ++ filter_order_tail nm pj od)%string.
Proof.
  intros Hn Hp Ho. unfold add_filter, add_order, filter_order_tail. rewrite Hn, Hp, Ho.
  cbn [bind need]. rewrite !str_app_assoc. reflexivity.
Qed.

Lemma plain_filter_order_tail (nm : string) (pj : Z) (od : string) :
  plain nm = true -> plain od = true -> plain (filter_order_tail nm pj od) = true.
Proof. intros Hn Ho. unfold filter_order_tail. plain_solve. Qed.

(** The compiled query of a backslash-free package is the text built by the
    steps: [SELECT], the source lines, the join fields, the FROM clause, the
    joins, the tail. *)
Lemma build_query_text (src : Source) (jl : list JoinItem) (sql nm : string)
    (fs : list dict) (pj : Z) (od : string) :
  package_plain src jl = true ->
  src_name src = Some nm -> src_fields src = Some fs ->
  src_project src = Some pj -> src_order src = Some od ->
  build_query (Some src) (Some jl) None = Ok (Some sql) ->
  exists q2 q3 q4,
    add_join_fields jl ("SELECT" ++ nl ++ source_lines nm (concat fs))%string = Ok q2
    /\ add_from src q2 = Ok q3 /\ add_joins jl q3 = Ok q4
    /\ sql = (q4 ++ filter_order_tail nm pj od)%string.
Proof.
  intros Hp Hn Hf Hpj Hod H.
  unfold package_plain in Hp. apply andb_prop in Hp as [Hs Hj].
  assert (Hsrc := Hs). unfold source_plain in Hsrc.
  apply andb_prop in Hsrc as [Hsrc Ho]. apply andb_prop in Hsrc as [Hsrc Hfp].
  apply andb_prop in Hsrc as [_ Hnp].
  unfold build_query, compile_query in H.
  rewrite (add_source_fields_text src nm fs _ Hn Hf) in H. cbn [bind] in H.
  rewrite str_app_assoc in H.
  destruct (add_join_fields jl _) as [q2 |] eqn:E2; [| discriminate]. cbn [bind] in H.
  destruct (add_from src q2) as [q3 |] eqn:E3; [| discriminate]. cbn [bind] in H.
  destruct (add_joins jl q3) as [q4 |] eqn:E4; [| discriminate]. cbn [bind] in H.
  pose proof (filter_order_text src nm pj od q4 Hn Hpj Hod) as Hfo.
  destruct (add_filter src q4) as [q5 |] eqn:E5; [| discriminate]. cbn [bind] in H, Hfo.
  rewrite Hfo in H. cbn [bind] in H.
  assert (P1 : plain ("SELECT" ++ nl ++ source_lines nm (concat fs))%string = true).
  { rewrite <- str_app_assoc.
    apply (add_source_fields_plain src ("SELECT" ++ nl) _ Hnp Hfp); [reflexivity |].
    apply add_source_fields_text; assumption. }
  assert (P2 : plain q2 = true) by exact (add_join_fields_plain jl _ q2 Hj P1 E2).
  assert (P3 : plain q3 = true) by exact (add_from_plain src q2 q3 Hs P2 E3).
  assert (P4 : plain q4 = true) by exact (add_joins_plain jl q3 q4 Hj P3 E4).
  rewrite Hn in Hnp. rewrite Hod in Ho. simpl in Hnp, Ho.
  rewrite decode_plain in H by (rewrite plain_app, P4; apply plain_filter_order_tail; assumption).
  cbn [need] in H. injection H as <-.
  exists q2, q3, q4. repeat split; assumption.
Qed.

Lemma item_complete_parts (it : JoinItem) :
  item_complete it = true ->
  exists nm sr ds qid fs, ji_name it = Some nm /\ ji_single_or_repeat it = Some sr
    /\ ji_data_source it = Some ds /\ ji_question_id it = Some qid /\ ji_fields it = Some fs.
Proof.
  unfold item_complete.
  destruct (ji_name it) as [nm |], (ji_single_or_repeat it) as [sr |],
    (ji_data_source it) as [ds |], (ji_question_id it) as [qid |], (ji_fields it) as [fs |];
    simpl; try discriminate.
  intros _. exists nm, sr, ds, qid, fs. repeat split.
Qed.

Lemma add_join_fields_ok (jl : list JoinItem) (q : string) :
  forallb item_complete jl = true -> exists q', add_join_fields jl q = Ok q'.
Proof.
  intros Hc. rewrite forallb_forall in Hc. unfold add_join_fields.
  apply fold_ok; [intros e [i it]; reflexivity |].
  intros a [index item] Hin. apply in_enumerate in Hin.
  destruct (item_complete_parts item (Hc item Hin)) as [nm [sr [ds [qid [fs [Hn [_ [_ [_ Hf]]]]]]]]].
  cbn [bind]. rewrite Hf. cbn [bind need].
  apply fold_ok; [intros e field; apply fold_raise; intros e' [tn jn]; reflexivity |].
  intros a0 field _. apply fold_ok; [intros e [tn jn]; reflexivity |].
  intros a1 [tn jn] _. cbn [bind]. rewrite Hn. cbn [bind need].
  destruct (_ && _); eexists; reflexivity.
Qed.

Lemma add_joins_ok (jl : list JoinItem) (q : string) :
  forallb item_complete jl = true -> exists q', add_joins jl q = Ok q'.
Proof.
  intros Hc. rewrite forallb_forall in Hc. unfold add_joins.
  destruct (fold_ok add_join_step (enumerate jl)) with (a := (q, 1%nat)) as [r ->].
  - intros e [i it]. reflexivity.
  - intros [q0 jc] [index item] Hin. apply in_enumerate in Hin.
    destruct (item_complete_parts item (Hc item Hin))
      as [nm [sr [ds [qid [fs [Hn [Hsr [Hds [Hq _]]]]]]]]].
    unfold add_join_step. cbn [bind]. destruct (data_conn_of index jc) as [dc jc'].
    unfold join_clauses. rewrite Hsr, Hq, Hds, Hn. cbn [bind need].
    destruct (String.eqb sr "SINGLE"); [| destruct (String.eqb sr "REPEATING")];
      cbn [bind]; eexists; reflexivity.
  - exists (fst r). reflexivity.
Qed.

(** A backslash-free package whose dicts have all the keys compiles. *)
Lemma build_query_ok (src : Source) (jl : list JoinItem) (tbl nm : string) (fs : list dict)
    (pj : Z) (od : string) :
  package_plain src jl = true -> forallb item_complete jl = true ->
  src_table src = Some tbl -> src_name src = Some nm -> src_fields src = Some fs ->
  src_project src = Some pj -> src_order src = Some od ->
  exists sql, build_query (Some src) (Some jl) None = Ok (Some sql).
Proof.
  intros Hp Hc Ht Hn Hf Hpj Hod.
  assert (Hp' := Hp). unfold package_plain in Hp'. apply andb_prop in Hp' as [Hs Hj].
  assert (Hsrc := Hs). unfold source_plain in Hsrc.
  apply andb_prop in Hsrc as [Hsrc Ho]. apply andb_prop in Hsrc as [Hsrc Hfp].
  apply andb_prop in Hsrc as [_ Hnp].
  set (S0 := ("SELECT" ++ nl ++ source_lines nm (concat fs))%string).
  destruct (add_join_fields_ok jl S0 Hc) as [q2 E2].
  pose proof (add_from_text src tbl nm q2 Ht Hn) as E3.
  destruct (add_joins_ok jl (q2 ++ nl ++ "FROM" ++ nl ++ "    " ++ tbl ++ " " ++ nm ++ nl)%string Hc)
    as [q4 E4].
  assert (P1 : plain S0 = true).
  { unfold S0. rewrite <- str_app_assoc.
    apply (add_source_fields_plain src ("SELECT" ++ nl) _ Hnp Hfp); [reflexivity |].
    apply add_source_fields_text; assumption. }
  assert (P4 : plain q4 = true).
  { apply (add_joins_plain jl (q2 ++ nl ++ "FROM" ++ nl ++ "    " ++ tbl ++ " " ++ nm ++ nl)%string
             q4 Hj); [| exact E4].
    apply (add_from_plain src q2 _ Hs); [| exact E3].
    exact (add_join_fields_plain jl S0 q2 Hj P1 E2). }
  rewrite Hn in Hnp. rewrite Hod in Ho. simpl in Hnp, Ho.
  exists (q4 ++ filter_order_tail nm pj od)%string.
  unfold build_query, compile_query.
  rewrite (add_source_fields_text src nm fs _ Hn Hf). cbn [bind].
  rewrite str_app_assoc. fold S0. rewrite E2. cbn [bind]. rewrite E3. cbn [bind].
  rewrite E4. cbn [bind]. pose proof (filter_order_text src nm pj od q4 Hn Hpj Hod) as Hfo.
  destruct (add_filter src q4) as [q5 | e]; cbn [bind] in Hfo |- *; [| discriminate].
  rewrite Hfo. cbn [bind].
  rewrite decode_plain by (rewrite plain_app, P4; apply plain_filter_order_tail; assumption).
  reflexivity.
Qed.

Lemma source_lines_comma (nm : string) (l : list (string * string)) :
  l <> [] -> exists pre, source_lines nm l = (pre ++ "," ++ nl)%string.
Proof.
  induction l as [| [tn jn] r IH]; intros Hne; [contradiction |].
  destruct r as [| p r'].
  - exists ("    " ++ nm ++ "." ++ tn ++ " AS " ++ jn)%string. cbn [source_lines].
    rewrite str_app_nil_r, !str_app_assoc. reflexivity.
  - destruct IH as [pre Hpre]; [discriminate |].
    exists ("    " ++ nm ++ "." ++ tn ++ " AS " ++ jn ++ "," ++ nl ++ pre)%string.
    cbn [source_lines] in Hpre |- *. rewrite Hpre, !str_app_assoc. reflexivity.
Qed.

Lemma fold_shift {A B : Type} (F : result A -> B -> result A) (g : A -> A) :
  (forall a b, F (res_map g a) b = res_map g (F a b)) ->
  forall l a, fold_left F l (res_map g a) = res_map g (fold_left F l a).
Proof.
  intros Hc l. induction l as [| b l IH]; intros a; [reflexivity |].
  cbn [fold_left]. rewrite Hc. apply IH.
Qed.

(** The join field step appends to the query a text that does not depend
    on the query. *)
Lemma add_join_fields_shift (jl : list JoinItem) (q : string) :
  add_join_fields jl q = res_map (String.append q) (add_join_fields jl "").
Proof.
  unfold add_join_fields.
  replace (Ok q : result string) with (res_map (String.append q) (Ok ""))
    by (cbn [res_map bind]; rewrite str_app_nil_r; reflexivity).
  apply fold_shift. intros [x | e] [index item]; cbn [res_map bind]; [| reflexivity].
  destruct (ji_fields item) as [fs |]; cbn [need bind]; [| reflexivity].
  change (Ok (q ++ x)%string) with (res_map (String.append q) (Ok x)).
  apply fold_shift. intros [y | e] field; cbn [res_map bind].
  - change (Ok (q ++ y)%string) with (res_map (String.append q) (Ok y)).
    apply fold_shift. intros [z | e] [tn jn]; cbn [res_map bind]; [| reflexivity].
    destruct (ji_name item) as [nm |]; cbn [need bind]; [| reflexivity].
    destruct (_ && _); cbn [res_map bind]; rewrite str_app_assoc; reflexivity.
  - rewrite !fold_raise by (intros e' [tn jn]; reflexivity). reflexivity.
Qed.

Lemma join_clauses_shift (dc : string) (item : JoinItem) (q x : string) :
  join_clauses dc item (q ++ x) = res_map (String.append q) (join_clauses dc item x).
Proof.
  unfold join_clauses.
  destruct (ji_single_or_repeat item) as [sr |]; cbn [need bind]; [| reflexivity].
  destruct (String.eqb sr "SINGLE"); [| destruct (String.eqb sr "REPEATING")];
    [| | reflexivity];
    (destruct (ji_question_id item) as [qid |]; cbn [need bind]; [| reflexivity]);
    (destruct (ji_data_source item) as [ds |]; cbn [need bind]; [| reflexivity]);
    (destruct (ji_name item) as [nm |]; cbn [need bind res_map]; [| reflexivity]);
    rewrite !str_app_assoc; reflexivity.
Qed.

(** The join step appends to the query a text that does not depend on the
    query. *)
Lemma add_joins_shift (jl : list JoinItem) (q : string) :
  add_joins jl q = res_map (String.append q) (add_joins jl "").
Proof.
  unfold add_joins.
  replace (Ok (q, 1%nat) : result (string * nat))
    with (res_map (fun p => ((q ++ fst p)%string, snd p)) (Ok (""%string, 1%nat)))
    by (cbn [res_map bind fst snd]; rewrite str_app_nil_r; reflexivity).
  rewrite fold_shift.
  - destruct (fold_left add_join_step (enumerate jl) (Ok (""%string, 1%nat))); reflexivity.
  - intros [[x jc] | e] [index item]; cbn [res_map bind]; [| reflexivity].
    unfold add_join_step. cbn [bind fst snd].
    destruct (data_conn_of index jc) as [dc jc'].
    rewrite join_clauses_shift.
    destruct (join_clauses dc item x); reflexivity.
Qed.

(** The layout of a compiled query: [SELECT], then one line [alias.column AS
    name,] per source field in declaration order, then the join field lines
    (the text the join field step writes for the join list on its own),
    the FROM clause naming the source table and alias, the join clauses
    (the text the join step writes for the join list on its own), and last
    the filter on the project id and the ordering, both on the source
    alias. This holds for every package whose texts have no backslash (so
    that the final [unicode_escape] decoding keeps the text). *)
Theorem build_query_layout :
  forall (src : Source) (jl : list JoinItem) (sql tbl nm : string) (fs : list dict)
         (pj : Z) (od : string),
  package_plain src jl = true ->
  src_table src = Some tbl -> src_name src = Some nm -> src_fields src = Some fs ->
  src_project src = Some pj -> src_order src = Some od ->
  build_query (Some src) (Some jl) None = Ok (Some sql) ->
  exists join_lines joins,
    add_join_fields jl "" = Ok join_lines
    /\ add_joins jl "" = Ok joins
    /\ sql = ("SELECT" ++ nl ++ source_lines nm (concat fs) ++ join_lines
              ++ nl ++ "FROM" ++ nl ++ "    " ++ tbl ++ " " ++ nm ++ nl
              ++ joins ++ filter_order_tail nm pj od)%string.
Proof.
  intros src jl sql tbl nm fs pj od Hp Ht Hn Hf Hpj Hod H.
  destruct (build_query_text src jl sql nm fs pj od Hp Hn Hf Hpj Hod H)
    as [q2 [q3 [q4 [E2 [E3 [E4 ->]]]]]].
  rewrite add_join_fields_shift in E2.
  destruct (add_join_fields jl "") as [t2 | e] eqn:F2; cbn [res_map bind] in E2;
    [| discriminate E2].
  apply (f_equal (fun r => match r with Ok x => x | Raise _ => q2 end)) in E2.
  cbv beta iota in E2. subst q2.
  rewrite (add_from_text src tbl nm _ Ht Hn) in E3.
  apply (f_equal (fun r => match r with Ok x => x | Raise _ => q3 end)) in E3.
  cbv beta iota in E3. subst q3.
  rewrite add_joins_shift in E4.
  destruct (add_joins jl "") as [t4 | e] eqn:F4; cbn [res_map bind] in E4;
    [| discriminate E4].
  apply (f_equal (fun r => match r with Ok x => x | Raise _ => q4 end)) in E4.
  cbv beta iota in E4. subst q4.
  exists t2, t4. split; [reflexivity | split; [reflexivity |]].
  rewrite !str_app_assoc. reflexivity.
Qed.

Lemma build_query_layout_witness :
  match build_query (Some (app_source "app")) (Some ex_joins) None with
  | Ok (Some sql) => exists join_lines joins,
      add_join_fields ex_joins "" = Ok join_lines
      /\ add_joins ex_joins "" = Ok joins
      /\ sql = ("SELECT" ++ nl ++ source_lines "app" (concat [[("application_number", "application_number");
                                                                ("created_at", "created_at")]])
                ++ join_lines ++ nl ++ "FROM" ++ nl ++ "    " ++ "applications_application" ++ " "
                ++ "app" ++ nl ++ joins ++ filter_order_tail "app" 34 "id")%string
  | _ => False
  end.
Proof.
  destruct (build_query (Some (app_source "app")) (Some ex_joins) None)
    as [[sql |] | e] eqn:E; [| vm_compute in E; discriminate | vm_compute in E; discriminate].
  apply (build_query_layout (app_source "app") ex_joins sql "applications_application" "app"
           [[("application_number", "application_number"); ("created_at", "created_at")]] 34 "id");
    [vm_compute; reflexivity | reflexivity | reflexivity | reflexivity | reflexivity
    | reflexivity | exact E].
Defined.

(** With an empty join list, for a source with all its keys, at least one
    field and no backslash in its texts, the compiled query is [SELECT], the
    source lines, and directly the FROM clause: the last SELECT line keeps its
    comma, so the text has a trailing [,] right before [FROM]. *)
Theorem build_query_empty_join_list :
  forall (src : Source) (tbl nm : string) (fs : list dict) (pj : Z) (od : string),
  source_plain src = true ->
  src_table src = Some tbl -> src_name src = Some nm -> src_fields src = Some fs ->
  src_project src = Some pj -> src_order src = Some od ->
  concat fs <> [] ->
  exists select_list,
    build_query (Some src) (Some []) None
    = Ok (Some ("SELECT" ++ nl ++ select_list ++ "," ++ nl ++ nl ++ "FROM" ++ nl ++ "    "
                ++ tbl ++ " " ++ nm ++ nl ++ filter_order_tail nm pj od)%string).
Proof.
  intros src tbl nm fs pj od Hs Ht Hn Hf Hpj Hod Hne.
  assert (Hp : package_plain src [] = true) by (unfold package_plain; rewrite Hs; reflexivity).
  destruct (build_query_ok src [] tbl nm fs pj od Hp eq_refl Ht Hn Hf Hpj Hod) as [sql E].
  destruct (build_query_text src [] sql nm fs pj od Hp Hn Hf Hpj Hod E)
    as [q2 [q3 [q4 [E2 [E3 [E4 Hsql]]]]]].
  assert (Ej : forall q, add_join_fields [] q = Ok q) by reflexivity.
  assert (Ek : forall q, add_joins [] q = Ok q) by reflexivity.
  rewrite Ej in E2. rewrite (add_from_text src tbl nm _ Ht Hn) in E3. rewrite Ek in E4.
  assert (Hq4 : q4 = (("SELECT" ++ nl ++ source_lines nm (concat fs)) ++ nl ++ "FROM"
                      ++ nl ++ "    " ++ tbl ++ " " ++ nm ++ nl)%string) by congruence.
  subst q4. destruct (source_lines_comma nm (concat fs) Hne) as [pre Hpre].
  exists pre. rewrite E, Hsql, Hpre, !str_app_assoc. reflexivity.
Qed.

Lemma build_query_empty_join_list_witness :
  exists select_list,
    build_query (Some (app_source "app")) (Some []) None
    = Ok (Some ("SELECT" ++ nl ++ select_list ++ "," ++ nl ++ nl ++ "FROM" ++ nl ++ "    "
                ++ "applications_application" ++ " " ++ "app" ++ nl
                ++ filter_order_tail "app" 34 "id")%string).
Proof.
  apply (build_query_empty_join_list (app_source "app") "applications_application" "app"
           [[("application_number", "application_number"); ("created_at", "created_at")]] 34 "id");
    try reflexivity. discriminate.
Defined.

(** When the source dict lacks ['project'] or ['order'] (and has the other
    keys, with join items having all theirs), [build_query] never returns a
    query: the bare [except:] handlers of the filter and order steps format
    the exception variable [e], which is unbound there, so the call raises
    [UnboundLocalError] instead of the intended message. *)
Theorem build_query_missing_project_or_order :
  forall (src : Source) (jl : list JoinItem) (tbl nm : string) (fs : list dict),
  src_table src = Some tbl -> src_name src = Some nm -> src_fields src = Some fs ->
  forallb item_complete jl = true ->
  src_project src = None \/ src_order src = None ->
  build_query (Some src) (Some jl) None = Raise ExnUnboundLocalE.
Proof.
  intros src jl tbl nm fs Ht Hn Hf Hc Hmiss.
  unfold build_query, compile_query.
  rewrite (add_source_fields_text src nm fs _ Hn Hf). cbn [bind].
  destruct (add_join_fields_ok jl ("SELECT" ++ nl ++ source_lines nm (concat fs))%string Hc)
    as [q2 E2].
  rewrite str_app_assoc, E2. cbn [bind]. rewrite (add_from_text src tbl nm _ Ht Hn). cbn [bind].
  destruct (add_joins_ok jl (q2 ++ nl ++ "FROM" ++ nl ++ "    " ++ tbl ++ " " ++ nm ++ nl)%string Hc)
    as [q4 ->].
  cbn [bind]. unfold add_filter, add_order. rewrite Hn. cbn [bind need].
  destruct Hmiss as [-> | Ho]; cbn [bind need]; [reflexivity |].
  destruct (src_project src); cbn [bind need]; [| reflexivity].
  rewrite Ho. reflexivity.
Qed.

Lemma build_query_missing_project_or_order_witness :
  build_query (Some {| src_table := Some "applications_application"; src_name := Some "app";
                       src_fields := Some [[("application_number", "application_number")]];
                       src_project := None; src_order := Some "id" |})
              (Some ex_joins) None = Raise ExnUnboundLocalE.
Proof.
  apply (build_query_missing_project_or_order _ ex_joins "applications_application" "app"
           [[("application_number", "application_number")]]);
    try reflexivity. left. reflexivity.
Defined.

(** ** Building an [RDS] object *)

Lemma build_package_schema (p : Z) (qs : list JoinItem) (jfs : list (list dict)) :
  map ji_fields qs = map Some jfs ->
  build_schema (Some (package_source p)) (Some qs) None None
  = Ok (["application_number"; "created_at"] ++ flat_map output_names jfs)%list.
Proof.
  intros Hj. unfold build_schema. cbn [package_source src_fields need bind].
  rewrite schema_fields_loop, (schema_joins_loop qs jfs _ Hj). reflexivity.
Qed.

Lemma query_to_df_schema (st : RDS) (data : DataFrame) :
  rds_schema (snd (query_to_df st data)) = rds_schema st.
Proof.
  unfold query_to_df. destruct (rds_query st); [| reflexivity].
  destruct (negb (df_empty data)); [| reflexivity].
  destruct (check_schema st data) as [[b st1] | e] eqn:E; [| reflexivity].
  rewrite (check_schema_frame st data b st1 E). destruct b; reflexivity.
Qed.

Lemma query_to_df_pull_schema (st : RDS) (cursor : string -> option DataFrame) :
  rds_schema (snd (query_to_df_pull st cursor)) = rds_schema st.
Proof.
  unfold query_to_df_pull. destruct (rds_query st) as [q |]; [| reflexivity].
  destruct (rds_sql_pull cursor q); [apply query_to_df_schema | reflexivity].
Qed.

(** [RDS(conn, cursor, build_query_package(p, questions), auto=False)] on
    question dicts with all their keys (and no backslash in their texts)
    builds an object whose query is compiled from the package, ending with
    the filter on project [p] and the ordering by [app.id], whose schema is
    [application_number], [created_at] and then the questions' output names
    in order, and whose table, duplicates, archive and missing fields are
    still empty; no query is run. *)
Theorem rds_init_query_package :
  forall (p : Z) (qs : list JoinItem) (jfs : list (list dict))
         (cursor : string -> option DataFrame),
  joins_plain qs = true -> forallb item_complete qs = true ->
  map ji_fields qs = map Some jfs ->
  exists body,
    rds_init (Some (build_query_package p qs)) false None None None cursor
    = Ok (new_rds (Some (body ++ filter_order_tail "app" p "id")%string)
                  (["application_number"; "created_at"] ++ flat_map output_names jfs)%list).
Proof.
  intros p qs jfs cursor Hj Hc Hf.
  assert (Hp : package_plain (package_source p) qs = true)
    by (unfold package_plain; rewrite Hj; reflexivity).
  destruct (build_query_ok (package_source p) qs "applications_application" "app"
              [[("application_number", "application_number"); ("created_at", "created_at")]]
              p "id" Hp Hc eq_refl eq_refl eq_refl eq_refl eq_refl) as [sql E].
  destruct (build_query_text (package_source p) qs sql "app"
              [[("application_number", "application_number"); ("created_at", "created_at")]]
              p "id" Hp eq_refl eq_refl eq_refl eq_refl E) as [q2 [q3 [q4 [_ [_ [_ Hsql]]]]]].
  exists q4. unfold rds_init. cbn [unpack_query build_query_package qp_source qp_join_list
                                    need bind].
  rewrite (build_package_schema p qs jfs Hf). cbn [bind]. rewrite E. cbn [bind].
  rewrite Hsql. reflexivity.
Qed.

Lemma rds_init_query_package_witness :
  exists body,
    rds_init (Some (build_query_package 37 ex_joins)) false None None None (fun _ => None)
    = Ok (new_rds (Some (body ++ filter_order_tail "app" 37 "id")%string)
                  (["application_number"; "created_at"]
                   ++ flat_map output_names [[[("value", "hotel_name")]];
                                             [[("value", "hotel_status")]];
                                             [[("value", "license_in")]]])%list).
Proof.
  apply (rds_init_query_package 37 ex_joins); vm_compute; reflexivity.
Defined.

(** A [schema] argument is kept only when no query package is given: with
    a package (a source and a join list), [build_schema] falls to its
    default branch and the object's schema is empty, whatever [schema] and
    [exclude] are, so no column is then checked; without a package and with
    no exclusion list the object's schema is the argument. *)
Theorem rds_init_schema_argument :
  (forall (qp : QueryPackage) (src : Source) (jl : list JoinItem) (sch : list string)
          (ex : option (list string)) (auto : bool) (q : option string)
          (cursor : string -> option DataFrame) (st : RDS),
     qp_source qp = Some src -> qp_join_list qp = Some jl ->
     rds_init (Some qp) auto (Some sch) ex q cursor = Ok st -> rds_schema st = [])
  /\
  (forall (sch : list string) (auto : bool) (q : option string)
          (cursor : string -> option DataFrame) (st : RDS),
     rds_init None auto (Some sch) None q cursor = Ok st -> rds_schema st = sch).
Proof.
  split.
  - intros qp src jl sch ex auto q cursor st Hs Hj. unfold rds_init, unpack_query.
    rewrite Hs, Hj. cbn [need bind build_schema].
    assert (Hex : (match ex with
                   | Some ex => Ok (filter (fun field => negb (existsb (String.eqb field) ex)) [])
                   | None => Ok []
                   end : result (list string)) = Ok []) by (destruct ex; reflexivity).
    rewrite Hex. cbn [bind].
    destruct (build_query (Some src) (Some jl) q) as [q' | e]; cbn [bind]; [| discriminate].
    destruct auto.
    + pose proof (query_to_df_pull_schema (new_rds q' []) cursor) as Hsch.
      destruct (query_to_df_pull (new_rds q' []) cursor) as [[df | e] st'];
        [| discriminate].
      intros H. injection H as <-. exact Hsch.
    + intros H. injection H as <-. reflexivity.
  - intros sch auto q cursor st. unfold rds_init. cbn [unpack_query bind build_schema].
    assert (Eq : build_query None None q = Ok q) by (destruct q; reflexivity).
    rewrite Eq. cbn [bind]. destruct auto.
    + pose proof (query_to_df_pull_schema (new_rds q sch) cursor) as Hsch.
      destruct (query_to_df_pull (new_rds q sch) cursor) as [[df | e] st'];
        [| discriminate].
      intros H. injection H as <-. exact Hsch.
    + intros H. injection H as <-. reflexivity.
Qed.

Lemma rds_init_schema_argument_witness :
  match rds_init (Some (build_query_package 34 ex_joins)) false (Some ["hotel_name"]) None None
          (fun _ => None) with
  | Ok st => rds_schema st = []
  | Raise _ => False
  end
  /\
  match rds_init None false (Some ["a"]) None (Some "q") (fun _ => None) with
  | Ok st => rds_schema st = ["a"]
  | Raise _ => False
  end.
Proof.
  destruct rds_init_schema_argument as [H1 H2]. split.
  - destruct (rds_init (Some (build_query_package 34 ex_joins)) false (Some ["hotel_name"]) None
                None (fun _ => None)) as [st | e] eqn:E; [| vm_compute in E; discriminate].
    exact (H1 (build_query_package 34 ex_joins) (package_source 34) ex_joins _ None false None _
             st eq_refl eq_refl E).
  - destruct (rds_init None false (Some ["a"]) None (Some "q") (fun _ => None))
      as [st | e] eqn:E; [| vm_compute in E; discriminate].
    exact (H2 _ false _ _ st E).
Defined.

(** With no query package and no [query], [RDS(..., auto=True)] raises: the
    query compiled is [None], and [query_to_df] raises its "DataFrame
    empty" error whatever the schema arguments and the cursor. *)
Theorem rds_init_no_query_auto :
  forall (sch ex : option (list string)) (cursor : string -> option DataFrame),
  rds_init None true sch ex None cursor = Raise ExnEmptyDataFrame.
Proof.
  intros sch ex cursor. unfold rds_init. cbn [unpack_query bind].
  destruct (build_schema None None sch ex) as [s | e] eqn:E.
  - reflexivity.
  - unfold build_schema in E. destruct sch, ex; discriminate.
Qed.

(** An object built with [auto=True] holds the table pulled by its own
    query: the pull returned a non-empty table that has every column of
    the schema, the object's table is that table with duplicate rows
    dropped, and its missing-field record is empty. *)
Theorem rds_init_auto_ok :
  forall (qp : option QueryPackage) (sch ex : option (list string)) (q : option string)
         (cursor : string -> option DataFrame) (st : RDS),
  rds_init qp true sch ex q cursor = Ok st ->
  exists sql data,
    rds_query st = Some sql /\ cursor sql = Some data /\ df_empty data = false
    /\ rds_df st = drop_duplicates data
    /\ Forall (fun f => In f (columns data)) (rds_schema st)
    /\ fields_missing st = [].
Proof.
  intros qp sch ex q cursor st. unfold rds_init.
  destruct (unpack_query qp) as [[source jl] | e]; cbn [bind]; [| discriminate].
  destruct (build_schema source jl sch ex) as [schema | e]; cbn [bind]; [| discriminate].
  destruct (build_query source jl q) as [query | e]; cbn [bind]; [| discriminate].
  destruct (query_to_df_pull (new_rds query schema) cursor) as [[df | e] st'] eqn:Ep;
    [| discriminate].
  intros H. injection H as <-.
  unfold query_to_df_pull in Ep. cbn [new_rds rds_query] in Ep.
  destruct query as [sql |]; [| discriminate].
  unfold rds_sql_pull in Ep. destruct (cursor sql) as [data |] eqn:Ec; cbn [need] in Ep;
    [| discriminate].
  destruct (df_empty data) eqn:He.
  - unfold query_to_df in Ep. cbn [new_rds rds_query] in Ep. rewrite He in Ep. discriminate.
  - destruct (query_to_df_ok_inv _ _ _ _ Ep) as [st1 [Ec1 [-> ->]]].
    destruct (check_schema_result (new_rds (Some sql) schema) data He) as [st2 [Ec2 Hfm]].
    rewrite Ec1 in Ec2. injection Ec2 as Hall <-.
    pose proof (check_schema_frame _ _ _ _ Ec1) as Hst1.
    cbn [new_rds rds_schema fields_missing] in Hall, Hfm.
    symmetry in Hall. rewrite forallb_forall in Hall.
    exists sql, data. cbn [rds_query rds_df rds_schema fields_missing].
    rewrite Hst1. cbn [set_fields_missing rds_query rds_schema fields_missing new_rds].
    split; [reflexivity |]. split; [exact Ec |]. split; [exact He |].
    split; [reflexivity |]. split.
    + apply Forall_forall. intros f Hf. specialize (Hall f Hf).
      apply existsb_exists in Hall as [c [Hc Hfc]]. apply String.eqb_eq in Hfc. subst c.
      exact Hc.
    + rewrite Hfm. cbn [List.app].
      clear -Hall. induction schema as [| f r IH]; [reflexivity |].
      cbn [filter]. rewrite (Hall f (or_introl eq_refl)). cbn [negb].
      apply IH. intros x Hx. apply Hall. right. exact Hx.
Qed.

Lemma rds_init_auto_ok_witness :
  match rds_init None true (Some ["a"]) None (Some "q")
          (fun _ => Some {| columns := ["a"; "b"];
                            rows := [[CInt 1; CStr "x"]; [CInt 1; CStr "x"]] |}) with
  | Ok st =>
      exists sql data,
        rds_query st = Some sql
        /\ Some {| columns := ["a"; "b"]; rows := [[CInt 1; CStr "x"]; [CInt 1; CStr "x"]] |}
           = Some data
        /\ df_empty data = false /\ rds_df st = drop_duplicates data
        /\ Forall (fun f => In f (columns data)) (rds_schema st) /\ fields_missing st = []
  | Raise _ => False
  end.
Proof.
  destruct (rds_init None true (Some ["a"]) None (Some "q")
              (fun _ => Some {| columns := ["a"; "b"];
                                rows := [[CInt 1; CStr "x"]; [CInt 1; CStr "x"]] |}))
    as [st | e] eqn:E; [| vm_compute in E; discriminate].
  exact (rds_init_auto_ok _ _ _ _ _ st E).
Defined.

(** ** Archive rotation: the edges *)

Lemma folder_dates_first_empty (Store : Type) (lc : Store -> string -> list Z) (s : Store)
    (pre post : list string) (k : string) :
  (forall x, In x pre -> lc s x <> []) -> lc s k = [] ->
  folder_dates Store lc s (pre ++ k :: post) = inl (CorruptArchive k).
Proof.
  intros Hpre Hk. induction pre as [| x r IH]; cbn [folder_dates List.app].
  - rewrite Hk. reflexivity.
  - destruct (lc s x) as [| t ts] eqn:Ex;
      [exfalso; exact (Hpre x (or_introl eq_refl) Ex) |].
    cbn [List.app] in IH. rewrite IH; [reflexivity |].
    intros y Hy. apply Hpre. right. exact Hy.
Qed.

(** Rotation on a faithful store with a limit of at most 0: the loop deletes
    every sub-folder, and the listing after the last deletion has no
    [CommonPrefixes]. *)
Lemma rotate_loop_drain (limit : Z) :
  (limit <= 0)%Z ->
  forall n fuel c s dels,
  NoDup (map fst s) -> (forall key ts, In (key, ts) s -> ts <> []) ->
  length s = S n ->
  (0 <= c)%Z -> (c + Z.of_nat (S n) <= max_iterations)%Z ->
  (Z.of_nat fuel + c = max_iterations + 1)%Z ->
  let o := rotate_loop folder_store fs_subfolders fs_contents fs_delete limit
             fuel c (fs_subfolders s) s dels in
  raised _ o = Some MissingCommonPrefixes
  /\ exists d, deleted _ o = (dels ++ d)%list /\ length d = S n /\ final _ o = [].
Proof.
  intros Hlim. unfold max_iterations.
  induction n as [| n IH]; intros fuel c s dels Hnd Hne Hlen Hc Hcn Hf;
    (destruct fuel as [| fuel]; [lia |]); cbn [rotate_loop];
    (replace (Z.gtb (Z.of_nat (length (fs_subfolders s))) limit) with true
       by (symmetry; apply Z.gtb_lt; unfold fs_subfolders; rewrite length_map, Hlen; lia));
    unfold max_iterations;
    (destruct (Z.gtb (c + 1) 150) eqn:Estuck; [apply Z.gtb_lt in Estuck; lia |]);
    change (fs_subfolders s) with (map fst s);
    rewrite (folder_dates_faithful s s Hnd (incl_refl s) Hne);
    (destruct (sort_by_date (map (fun p => (fst p, oldest_of (snd p))) s))
       as [| [key t] r] eqn:Esort;
     [pose proof (sort_by_date_length (map (fun p => (fst p, oldest_of (snd p))) s)) as L;
      rewrite Esort, length_map in L; simpl in L; lia |]);
    destruct (sort_by_date_min _ _ _ Esort) as [Hin _];
    apply in_map_iff in Hin as [[key' ts] [Ep Hin]]; simpl in Ep;
    injection Ep as -> Et; subst t;
    change (fs_delete s key) with (Some (remove_folder s key));
    cbv beta iota zeta;
    (assert (Hlen' : S (length (remove_folder s key)) = length s)
       by (apply (remove_folder_length s key Hnd);
           apply in_map_iff; exists (key, ts); split; [reflexivity | exact Hin]));
    rewrite Hlen in Hlen'; injection Hlen' as Hlen'.
  - destruct (remove_folder s key) as [| p l] eqn:Er; [| discriminate].
    cbn [fs_subfolders map raised deleted final]. split; [reflexivity |].
    exists [key]. split; [reflexivity | split; reflexivity].
  - assert (Hnd' : NoDup (map fst (remove_folder s key))) by (apply remove_folder_nodup; exact Hnd).
    assert (Hne' : forall key0 ts0, In (key0, ts0) (remove_folder s key) -> ts0 <> []).
    { intros key0 ts0 Hp. apply filter_In in Hp as [Hp _]. exact (Hne key0 ts0 Hp). }
    destruct (fs_subfolders (remove_folder s key)) as [| x l] eqn:Es'.
    { unfold fs_subfolders in Es'. apply (f_equal (@length string)) in Es'.
      rewrite length_map in Es'. simpl in Es'. lia. }
    rewrite <- Es'.
    destruct (IH fuel (c + 1)%Z (remove_folder s key) (dels ++ [key])%list Hnd' Hne' Hlen')
      as [Hr [d [Hd [Hl Hfin]]]]; [lia | lia | lia |].
    split; [exact Hr |]. exists (key :: d).
    rewrite Hd, <- app_assoc. split; [reflexivity |].
    split; [simpl; rewrite Hl; reflexivity | exact Hfin].
Qed.

(** A rotation never touches the archive while the sub-folder count is
    within the limit: for any object store, the call returns normally,
    deletes nothing and leaves the store as it was. *)
Theorem rotation_within_limit :
  forall (Store : Type) (ls : Store -> list string) (lc : Store -> string -> list Z)
         (del : Store -> string -> option Store) (limit : Z) (s : Store),
  (Z.of_nat (length (ls s)) <= limit)%Z ->
  monitor_and_maintain_archive_limit Store ls lc del limit s
  = {| raised := None; deleted := []; final := s |}.
Proof.
  intros Store ls lc del limit s H. unfold monitor_and_maintain_archive_limit.
  destruct (ls s) as [| x l] eqn:E; [reflexivity |]. rewrite <- E in H |- *.
  cbn [rotate_loop]. replace (Z.gtb (Z.of_nat (length (ls s))) limit) with false
    by (symmetry; rewrite Z.gtb_ltb; apply Z.ltb_ge; lia).
  reflexivity.
Qed.

Lemma rotation_within_limit_witness :
  monitor_and_maintain_archive_limit folder_store fs_subfolders fs_contents fs_delete 30
    (numbered_folders 5)
  = {| raised := None; deleted := []; final := numbered_folders 5 |}.
Proof. apply rotation_within_limit. vm_compute. discriminate. Defined.

(** Over the limit, the first listed sub-folder with no objects stops the
    rotation before any deletion, whether or not it is the oldest: the call
    raises "Contents not found in Folder List" for that key, deletes
    nothing and leaves the store as it was. *)
Theorem rotation_empty_folder_aborts :
  forall (Store : Type) (ls : Store -> list string) (lc : Store -> string -> list Z)
         (del : Store -> string -> option Store) (limit : Z) (s : Store)
         (pre post : list string) (k : string),
  (limit < Z.of_nat (length (ls s)))%Z ->
  ls s = (pre ++ k :: post)%list ->
  (forall x, In x pre -> lc s x <> []) -> lc s k = [] ->
  monitor_and_maintain_archive_limit Store ls lc del limit s
  = {| raised := Some (CorruptArchive k); deleted := []; final := s |}.
Proof.
  intros Store ls lc del limit s pre post k Hgt Hls Hpre Hk.
  unfold monitor_and_maintain_archive_limit.
  destruct (ls s) as [| x l] eqn:E; [destruct pre; discriminate |]. rewrite <- E in Hgt |- *.
  cbn [rotate_loop]. replace (Z.gtb (Z.of_nat (length (ls s))) limit) with true
    by (symmetry; apply Z.gtb_lt; lia).
  unfold max_iterations. replace (Z.gtb (0 + 1) 150) with false by reflexivity.
  rewrite E, Hls, (folder_dates_first_empty Store lc s pre post k Hpre Hk). reflexivity.
Qed.

Lemma rotation_empty_folder_aborts_witness :
  monitor_and_maintain_archive_limit folder_store fs_subfolders fs_contents fs_delete 1
    [("a/", [5%Z]); ("b/", []); ("c/", [1%Z])]
  = {| raised := Some (CorruptArchive "b/"); deleted := [];
       final := [("a/", [5%Z]); ("b/", []); ("c/", [1%Z])] |}.
Proof.
  apply (rotation_empty_folder_aborts _ _ _ _ _ _ ["a/"] ["c/"]).
  - vm_compute. reflexivity.
  - reflexivity.
  - intros x [<- | []]. discriminate.
  - reflexivity.
Defined.

(** With a limit of 0 (or below), a rotation over a store that reflects
    deletions, holding between 1 and 150 non-empty sub-folders with distinct
    keys, deletes every sub-folder and then raises: the listing after the
    last deletion has no [CommonPrefixes] key, so [result['CommonPrefixes']]
    raises [KeyError]. *)
Theorem rotation_nonpositive_limit_drains :
  forall (limit : Z) (s : folder_store),
  (limit <= 0)%Z ->
  NoDup (map fst s) ->
  (forall key ts, In (key, ts) s -> ts <> []) ->
  (1 <= length s <= 150)%nat ->
  raised _ (rotate_faithful limit s) = Some MissingCommonPrefixes
  /\ length (deleted _ (rotate_faithful limit s)) = length s
  /\ final _ (rotate_faithful limit s) = [].
Proof.
  intros limit s Hlim Hnd Hne Hlen.
  destruct (length s) as [| n] eqn:Hl; [lia |].
  unfold rotate_faithful, monitor_and_maintain_archive_limit.
  destruct (fs_subfolders s) as [| x l] eqn:E.
  { unfold fs_subfolders in E. apply (f_equal (@length string)) in E.
    rewrite length_map, Hl in E. discriminate. }
  rewrite <- E.
  destruct (rotate_loop_drain limit Hlim n (S (Z.to_nat max_iterations)) 0%Z s []
              Hnd Hne Hl) as [Hr [d [Hd [Hdl Hfin]]]];
    [lia | unfold max_iterations; lia | reflexivity |].
  rewrite Hd. cbn [List.app]. split; [exact Hr | split; assumption].
Qed.

Lemma rotation_nonpositive_limit_drains_witness :
  raised _ (rotate_faithful 0 (numbered_folders 3)) = Some MissingCommonPrefixes
  /\ length (deleted _ (rotate_faithful 0 (numbered_folders 3))) = length (numbered_folders 3)
  /\ final _ (rotate_faithful 0 (numbered_folders 3)) = [].
Proof.
  apply rotation_nonpositive_limit_drains.
  - lia.
  - vm_compute. repeat constructor; simpl; intuition discriminate.
  - intros key ts Hin. vm_compute in Hin.
    destruct Hin as [E | [E | [E | []]]]; injection E as _ <-; discriminate.
  - vm_compute. lia.
Defined.

(** ** Uploads to the bucket *)

(** [update_active_data] writes the CSV of [data] at the key
    [project_folder + active_folder + file_name], replacing the file if it
    exists and creating it if not: it returns normally exactly when the
    listing and that one write succeed. Every failure is raised as "Could
    not update active csv file" around the cause, and leaves the bucket as
    it was. *)
Theorem update_active_data_outcome :
  forall (Store : Type) (list_objects : Store -> string -> option (option (list string)))
         (put_object : Store -> string -> option string -> option Store)
         (to_csv : DataFrame -> string) (s : Store)
         (project_folder active_folder file_name : string) (data : DataFrame),
  let key := (project_folder ++ active_folder ++ file_name)%string in
  let r := update_active_data Store list_objects put_object to_csv s
             project_folder active_folder file_name data in
  (forall s', r = (None, s') <->
     (exists contents, list_objects s key = Some contents)
     /\ put_object s key (Some (to_csv data)) = Some s')
  /\ (forall e s', r = (Some e, s') -> s' = s /\ exists inner, e = UpdateFailed inner).
Proof.
  intros Store list_objects put_object to_csv s pf af fn data key r. subst key r.
  unfold update_active_data.
  destruct (list_objects s (pf ++ af ++ fn)) as [contents |] eqn:El.
  - cbv zeta.
    destruct (match contents with
              | Some keys => existsb (fun key => String.eqb key (pf ++ af ++ fn)) keys
              | None => false
              end);
    (destruct (put_object s (pf ++ af ++ fn) (Some (to_csv data))) as [s1 |] eqn:Ep);
    (split; [intros s'; split | intros e s' H]).
    all: try (intros H; injection H as <-; split; [exists contents; reflexivity | reflexivity]).
    all: try (intros [_ H]; injection H as <-; reflexivity).
    all: try discriminate.
    all: try (intros H; discriminate H).
    all: try (intros [_ H]; discriminate H).
    all: injection H as <- <-; split; [reflexivity | eexists; reflexivity].
  - split; [intros s'; split | intros e s' H].
    + discriminate.
    + intros [[c Hc] _]. discriminate.
    + injection H as <- <-. split; [reflexivity | eexists; reflexivity].
Qed.

Lemma update_active_data_outcome_witness :
  update_active_data write_log log_list log_put log_csv ["p/a/f.csv"] "p/" "a/" "f.csv"
    empty_frame = (None, ["p/a/f.csv"; "p/a/f.csv"])
  /\ update_active_data write_log log_list log_put log_csv [] "p/" "a/" "f.csv"
       empty_frame = (None, ["p/a/f.csv"]).
Proof.
  split.
  - apply (proj1 (update_active_data_outcome write_log log_list log_put log_csv ["p/a/f.csv"]
                    "p/" "a/" "f.csv" empty_frame)).
    split; [eexists; reflexivity | reflexivity].
  - apply (proj1 (update_active_data_outcome write_log log_list log_put log_csv []
                    "p/" "a/" "f.csv" empty_frame)).
    split; [eexists; reflexivity | reflexivity].
Defined.

Lemma add_archive_package_steps :
  forall (Store : Type) (put_object : Store -> string -> option string -> option Store)
         (to_csv : DataFrame -> string) (s : Store) (st : RDS)
         (project_folder archive_folder date_folder now : string),
  add_archive_package Store put_object to_csv s project_folder archive_folder date_folder
    (rds_archive st) now
  = match archive st with
    | None => (Some (CycleFailed NoItems), s)
    | Some (dups, df) =>
        match put_object s (project_folder ++ archive_folder ++ date_folder ++ "Duplicates.csv")
                (Some (to_csv dups)) with
        | None => (Some (CycleFailed DuplicatesUploadFailed), s)
        | Some s1 =>
            match put_object s1 (project_folder ++ archive_folder ++ date_folder
                                   ++ "Archived-Data-" ++ now ++ ".csv")
                    (Some (to_csv df)) with
            | None => (Some (CycleFailed ArchivedDataUploadFailed), s1)
            | Some s2 => (None, s2)
            end
        end
    end.
Proof.
  intros Store put_object to_csv s st pf af df now.
  unfold rds_archive. destruct (archive st) as [[dups d] |]; [| reflexivity].
  cbn [add_archive_package archive_items_loop]. rewrite String.eqb_refl.
  destruct (put_object s _ _) as [s1 |]; [| reflexivity].
  replace (String.eqb "Data" "Duplicates") with false by reflexivity.
  rewrite String.eqb_refl.
  destruct (put_object s1 _ _) as [s2 |]; reflexivity.
Qed.

Lemma archive_items_loop_in_date_folder :
  forall (Store : Type) (put_object : Store -> string -> option string -> option Store)
         (to_csv : DataFrame -> string) (P : Store -> Prop)
         (project_folder archive_folder date_folder now : string),
  (forall s1 rest body s2, P s1 ->
     put_object s1 (project_folder ++ archive_folder ++ date_folder ++ rest) body = Some s2 ->
     P s2) ->
  forall items s, P s ->
  P (snd (archive_items_loop Store put_object to_csv s project_folder archive_folder
            date_folder now items)).
Proof.
  intros Store put to_csv P pf af df now Hput items.
  induction items as [| [section content] rest IH]; intros s Hs; [exact Hs |].
  cbn [archive_items_loop].
  destruct (String.eqb section "Duplicates").
  - destruct (put s (pf ++ af ++ df ++ "Duplicates.csv") (Some (to_csv content)))
      as [s' |] eqn:Ep; [| exact Hs].
    exact (IH s' (Hput _ _ _ _ Hs Ep)).
  - destruct (String.eqb section "Data"); [| exact (IH s Hs)].
    destruct (put s (pf ++ af ++ df ++ "Archived-Data-" ++ now ++ ".csv")
                (Some (to_csv content))) as [s' |] eqn:Ep; [| exact Hs].
    exact (IH s' (Hput _ _ _ _ Hs Ep)).
Qed.

(** [add_archive_package], for any archive package, writes only inside the
    date folder [project_folder + archive_folder + date_folder]: every
    property of the bucket kept by a write under that prefix still holds
    after the call, whether it returns or raises. Every exception it raises
    is "Failed to Cycle Through RDS Cleaning Versions" ([CycleFailed])
    around the cause. *)
Theorem add_archive_package_writes_in_date_folder :
  forall (Store : Type) (put_object : Store -> string -> option string -> option Store)
         (to_csv : DataFrame -> string) (P : Store -> Prop) (s : Store)
         (project_folder archive_folder date_folder : string)
         (archive_package : ArchivePackage) (now : string),
  (forall s1 rest body s2, P s1 ->
     put_object s1 (project_folder ++ archive_folder ++ date_folder ++ rest) body = Some s2 ->
     P s2) ->
  P s ->
  let r := add_archive_package Store put_object to_csv s project_folder archive_folder
             date_folder archive_package now in
  P (snd r) /\ (forall e, fst r = Some e -> exists inner, e = CycleFailed inner).
Proof.
  intros Store put to_csv P s pf af df pkg now Hput Hs r. subst r.
  destruct pkg as [| items]; cbn [add_archive_package].
  - split; [exact Hs |]. intros e He. cbn [fst] in He. injection He as <-.
    eexists; reflexivity.
  - pose proof (archive_items_loop_in_date_folder Store put to_csv P pf af df now Hput items s Hs)
      as Hl.
    destruct (archive_items_loop Store put to_csv s pf af df now items) as [e0 s'].
    split; [exact Hl |]. intros e He. cbn [fst] in He.
    destruct e0 as [e1 |]; [| discriminate].
    cbn [option_map] in He. injection He as <-. eexists; reflexivity.
Qed.

Lemma add_archive_package_writes_in_date_folder_witness :
  Forall (fun k => exists rest, k = ("p/" ++ "a/" ++ "d/" ++ rest)%string)
    (snd (add_archive_package write_log log_put log_csv [] "p/" "a/" "d/"
            (ArchiveDict [("Duplicates", empty_frame); ("Data", empty_frame)]) "now"))
  /\ (forall e, fst (add_archive_package write_log log_put log_csv [] "p/" "a/" "d/"
                   (ArchiveDict [("Duplicates", empty_frame); ("Data", empty_frame)]) "now")
                = Some e -> exists inner, e = CycleFailed inner).
Proof.
  apply (add_archive_package_writes_in_date_folder write_log log_put log_csv
           (Forall (fun k => exists rest, k = ("p/" ++ "a/" ++ "d/" ++ rest)%string))
           [] "p/" "a/" "d/"
           (ArchiveDict [("Duplicates", empty_frame); ("Data", empty_frame)]) "now").
  - intros s1 rest body s2 H1 Ep. unfold log_put in Ep.
    assert (s2 = ("p/" ++ "a/" ++ "d/" ++ rest)%string :: s1) as -> by congruence.
    constructor; [exists rest; reflexivity | exact H1].
  - constructor.
Defined.

(** [add_archive] with an [RDS] object whose table was never pulled (its
    archive is still the list [[]]): once the rotation has run and the
    date-folder marker is written, the package step raises, so the call
    raises after leaving the rotation's deletions and an empty date folder
    in the bucket. *)
Theorem add_archive_without_data :
  forall (Store : Type) (list_prefixes : Store -> string -> list string)
         (list_stamps : Store -> string -> list Z)
         (delete_object : Store -> string -> option Store)
         (put_object : Store -> string -> option string -> option Store)
         (to_csv : DataFrame -> string) (s s1 : Store) (st : RDS)
         (project_folder archive_folder : string) (limit : Z) (now_folder now_data : string),
  archive st = None ->
  let o := rotate_archive Store list_prefixes list_stamps delete_object s
             (project_folder ++ archive_folder) limit in
  raised _ o = None ->
  put_object (final _ o) ((project_folder ++ archive_folder) ++ now_folder ++ "/") None = Some s1 ->
  add_archive Store list_prefixes list_stamps delete_object put_object to_csv s
    project_folder archive_folder limit (rds_archive st) now_folder now_data
  = (Some (PackageUploadFailed (CycleFailed NoItems)), s1).
Proof.
  intros Store lp ls del put to_csv s s1 st pf af limit nf nd Ha o Hr Hp. subst o.
  unfold add_archive. rewrite Hr, Hp. unfold rds_archive. rewrite Ha. reflexivity.
Qed.

Lemma add_archive_without_data_witness :
  add_archive write_log log_prefixes log_stamps log_delete log_put log_csv []
    "p/" "archive/" 30 (rds_archive (new_rds (Some "q") [])) "2024-01-01 00:00:00" "x"
  = (Some (PackageUploadFailed (CycleFailed NoItems)), ["p/archive/2024-01-01 00:00:00/"]).
Proof.
  apply (add_archive_without_data write_log log_prefixes log_stamps log_delete log_put log_csv
           [] ["p/archive/2024-01-01 00:00:00/"] (new_rds (Some "q") []));
    reflexivity.
Defined.

(** [add_archive] with an archived [RDS] object returns normally exactly
    when the rotation returns normally and three writes succeed in turn on
    the rotated bucket: the date-folder marker, [Duplicates.csv] and
    [Archived-Data-<now>.csv]; the bucket it leaves is the one after the
    third write. *)
Theorem add_archive_success :
  forall (Store : Type) (list_prefixes : Store -> string -> list string)
         (list_stamps : Store -> string -> list Z)
         (delete_object : Store -> string -> option Store)
         (put_object : Store -> string -> option string -> option Store)
         (to_csv : DataFrame -> string) (s s' : Store) (st : RDS) (dups df : DataFrame)
         (project_folder archive_folder : string) (limit : Z) (now_folder now_data : string),
  archive st = Some (dups, df) ->
  let o := rotate_archive Store list_prefixes list_stamps delete_object s
             (project_folder ++ archive_folder) limit in
  let date_folder := (now_folder ++ "/")%string in
  add_archive Store list_prefixes list_stamps delete_object put_object to_csv s
    project_folder archive_folder limit (rds_archive st) now_folder now_data = (None, s')
  <->
  raised _ o = None
  /\ exists s1 s2,
       put_object (final _ o) ((project_folder ++ archive_folder) ++ date_folder) None = Some s1
       /\ put_object s1 (project_folder ++ archive_folder ++ date_folder ++ "Duplicates.csv")
            (Some (to_csv dups)) = Some s2
       /\ put_object s2 (project_folder ++ archive_folder ++ date_folder
                           ++ "Archived-Data-" ++ now_data ++ ".csv") (Some (to_csv df))
          = Some s'.
Proof.
  intros Store lp ls del put to_csv s s' st dups d pf af limit nf nd Ha o date_folder.
  subst o date_folder. unfold add_archive.
  destruct (raised _ (rotate_archive Store lp ls del s (pf ++ af) limit)) as [e |] eqn:Er.
  - split; [intros H; discriminate H | intros [H _]; discriminate H].
  - destruct (put (final _ (rotate_archive Store lp ls del s (pf ++ af) limit))
                ((pf ++ af) ++ nf ++ "/") None) as [s1 |] eqn:Ep.
    + rewrite (add_archive_package_steps Store put to_csv s1 st pf af (nf ++ "/") nd).
      rewrite Ha.
      destruct (put s1 (pf ++ af ++ (nf ++ "/") ++ "Duplicates.csv") (Some (to_csv dups)))
        as [s2 |] eqn:E2.
      * destruct (put s2 (pf ++ af ++ (nf ++ "/") ++ "Archived-Data-" ++ nd ++ ".csv")
                    (Some (to_csv d))) as [s3 |] eqn:E3.
        -- split.
           ++ intros H. injection H as <-. split; [reflexivity |].
              exists s1, s2. split; [reflexivity | split; assumption].
           ++ intros [_ [s1' [s2' [H1 [H2 H3]]]]]. injection H1 as <-. rewrite E2 in H2.
              injection H2 as <-. rewrite E3 in H3. injection H3 as <-. reflexivity.
        -- split; [intros H; discriminate H |].
           intros [_ [s1' [s2' [H1 [H2 H3]]]]]. injection H1 as <-. rewrite E2 in H2.
           injection H2 as <-. rewrite E3 in H3. discriminate H3.
      * split; [intros H; discriminate H |].
        intros [_ [s1' [s2' [H1 [H2 H3]]]]]. injection H1 as <-. rewrite E2 in H2.
        discriminate H2.
    + split; [intros H; discriminate H |].
      intros [_ [s1' [s2' [H1 _]]]]. discriminate H1.
Qed.

Lemma add_archive_success_witness :
  add_archive write_log log_prefixes log_stamps log_delete log_put log_csv []
    "p/" "archive/" 30 (rds_archive {| rds_query := Some "q"; rds_schema := [];
                                      fields_missing := []; duplicates := empty_frame;
                                      rds_df := empty_frame;
                                      archive := Some (empty_frame, empty_frame) |})
    "d" "t"
  = (None, ["p/archive/d/Archived-Data-t.csv"; "p/archive/d/Duplicates.csv"; "p/archive/d/"]).
Proof.
  apply (add_archive_success write_log log_prefixes log_stamps log_delete log_put log_csv []
           _ {| rds_query := Some "q"; rds_schema := []; fields_missing := [];
                duplicates := empty_frame; rds_df := empty_frame;
                archive := Some (empty_frame, empty_frame) |}
           empty_frame empty_frame "p/" "archive/" 30 "d" "t" eq_refl).
  split; [reflexivity |]. eexists _, _. split; [reflexivity | split; reflexivity].
Defined.

(** ** The schema list *)

Lemma fields_all_some (jl : list JoinItem) :
  (forall it, In it jl -> ji_fields it <> None) -> exists jfs, map ji_fields jl = map Some jfs.
Proof.
  induction jl as [| it r IH]; intros H; [exists []; reflexivity |].
  destruct (ji_fields it) as [fs |] eqn:E; [| exfalso; exact (H it (or_introl eq_refl) E)].
  destruct IH as [jfs Hj]; [intros it' Hin; apply H; right; exact Hin |].
  exists (fs :: jfs). simpl. rewrite E, Hj. reflexivity.
Qed.

Lemma fields_missing_dec (jl : list JoinItem) :
  (exists it, In it jl /\ ji_fields it = None) \/ (forall it, In it jl -> ji_fields it <> None).
Proof.
  induction jl as [| it r [[it0 [Hin Hn]] | Hall]].
  - right. intros it [].
  - left. exists it0. split; [right; exact Hin | exact Hn].
  - destruct (ji_fields it) as [fs |] eqn:E.
    + right. intros it' [<- | Hin]; [congruence | exact (Hall it' Hin)].
    + left. exists it. split; [left; reflexivity | exact E].
Qed.

Lemma schema_joins_missing (jl : list JoinItem) : forall acc,
  (exists it, In it jl /\ ji_fields it = None) ->
  fold_left (fun acc item =>
      let* lst := acc in
      let* ifs := need item.(ji_fields) ExnSchemaBuild in
      Ok (fold_left (fun acc field =>
            fold_left (fun acc '(_, jn) => (acc ++ [jn])%list) field acc) ifs lst))
    jl (Ok acc)
  = Raise ExnSchemaBuild.
Proof.
  induction jl as [| it r IH]; intros acc [it0 [Hin Hn]]; [destruct Hin |].
  cbn [fold_left]. destruct (ji_fields it) as [fs |] eqn:E.
  - cbn [bind need]. apply IH. destruct Hin as [-> | Hin]; [congruence |].
    exists it0. split; assumption.
  - cbn [bind need]. apply fold_raise. intros e item. reflexivity.
Qed.

(** With a query package and an exclusion list, the schema is the list of
    declared output names, source first then each join item in order, with
    every name of the exclusion list removed (each occurrence) and the
    others kept in order. *)
Theorem build_schema_exclude :
  forall (src : Source) (jl : list JoinItem) (fs : list dict) (jfs : list (list dict))
         (ex : list string),
  src.(src_fields) = Some fs ->
  map ji_fields jl = map Some jfs ->
  exists schema,
    build_schema (Some src) (Some jl) None (Some ex) = Ok schema
    /\ schema = filter (fun f => negb (existsb (String.eqb f) ex))
                       (output_names fs ++ flat_map output_names jfs)%list
    /\ (forall f, In f schema <-> In f (output_names fs ++ flat_map output_names jfs)%list
                                  /\ ~ In f ex).
Proof.
  intros src jl fs jfs ex Hs Hj.
  eexists. split; [| split; [reflexivity |]].
  - unfold build_schema. rewrite Hs. simpl.
    rewrite schema_fields_loop, (schema_joins_loop jl jfs _ Hj). reflexivity.
  - intros f. rewrite filter_In. split.
    + intros [Hin Hx]. split; [exact Hin |]. intros Hf. apply negb_true_iff in Hx.
      assert (existsb (String.eqb f) ex = true)
        by (apply existsb_exists; exists f; split; [exact Hf | apply String.eqb_refl]).
      congruence.
    + intros [Hin Hf]. split; [exact Hin |]. apply negb_true_iff.
      destruct (existsb (String.eqb f) ex) eqn:E; [| reflexivity].
      apply existsb_exists in E as [x [Hx Hfx]]. apply String.eqb_eq in Hfx. subst x.
      contradiction.
Qed.

Lemma build_schema_exclude_witness :
  exists schema,
    build_schema (Some (app_source "app")) (Some ex_joins) None (Some ["created_at"; "license_in"])
      = Ok schema
    /\ schema = filter (fun f => negb (existsb (String.eqb f) ["created_at"; "license_in"]))
                  (output_names [[("application_number", "application_number");
                                  ("created_at", "created_at")]]
                   ++ flat_map output_names [[[("value", "hotel_name")]];
                                             [[("value", "hotel_status")]];
                                             [[("value", "license_in")]]])%list
    /\ (forall f, In f schema <->
          In f (output_names [[("application_number", "application_number");
                               ("created_at", "created_at")]]
                ++ flat_map output_names [[[("value", "hotel_name")]];
                                          [[("value", "hotel_status")]];
                                          [[("value", "license_in")]]])%list
          /\ ~ In f ["created_at"; "license_in"]).
Proof. apply build_schema_exclude; reflexivity. Defined.

(** With a query package (and no [schema] argument), [build_schema] raises
    "Could not build schema" exactly when the source or some join item has
    no ['fields'] key, whatever the exclusion list. *)
Theorem build_schema_missing_fields :
  forall (src : Source) (jl : list JoinItem) (ex : option (list string)),
  build_schema (Some src) (Some jl) None ex = Raise ExnSchemaBuild
  <-> src_fields src = None \/ exists it, In it jl /\ ji_fields it = None.
Proof.
  intros src jl ex. unfold build_schema. split.
  - intros H. destruct (src_fields src) as [fs |] eqn:Hs; [| left; reflexivity]. right.
    destruct (fields_missing_dec jl) as [Hnone | Hall]; [exact Hnone |].
    destruct (fields_all_some jl Hall) as [jfs Hj].
    simpl in H. rewrite schema_fields_loop, (schema_joins_loop jl jfs _ Hj) in H.
    destruct ex; discriminate H.
  - intros [Hs | Hj].
    + rewrite Hs. reflexivity.
    + destruct (src_fields src) as [fs |]; [| reflexivity]. simpl.
      rewrite schema_fields_loop, (schema_joins_missing jl _ Hj). reflexivity.
Qed.

Lemma build_schema_missing_fields_witness :
  build_schema (Some (app_source "app"))
    (Some [{| ji_name := Some "a1"; ji_single_or_repeat := Some "SINGLE";
              ji_data_source := Some "value"; ji_question_id := Some 10%Z;
              ji_fields := None |}]) None (Some ["created_at"])
  = Raise ExnSchemaBuild.
Proof.
  apply (proj2 (build_schema_missing_fields _ _ _)). right.
  eexists. split; [left; reflexivity | reflexivity].
Defined.
